(** * on_this_day: the Event record, its ordering, the source adapters and
      the collector of [main.py], embedded in Rocq.

    The Python program is embedded shallowly.  A call that may raise returns
    a [result]: the value, or the exception that ends the call.  The outside
    of the program (the clock, the two web sites, [dateutil]'s parser) is a
    [World] record passed to the code that reads it.  A page is read as
    BeautifulSoup gives it: a tree of tags, on which an attribute that the
    class Tag does not define, [content] among them, is a search for the first
    tag of that name inside.

    [main.py] is a draft: as it stands the file does not load (line 30
    imports from a module [ABC], the class of line 132 has no body, the
    string of line 170 has no end, and [Optional], [List] and [Enum] are not
    imported).  Each function is embedded on its own, as Python runs its
    body: a name that is bound nowhere raises NameError where it is read, a
    member the enumeration does not have raises AttributeError, and so on. *)

From Stdlib Require Import ZArith List String Ascii Bool Lia.
From Stdlib Require Import Sorting.Sorted Sorting.Permutation.
From Stdlib Require Import DecimalString.
Import ListNotations.

Local Open Scope string_scope.
Local Open Scope Z_scope.

(** ** Exceptions and results *)

(** The exceptions a call of [main.py] can end with.  [Raised cls] is an
    exception of class [cls] thrown by a collaborator ([requests],
    [dateutil], [bs4]); the others are raised by the interpreter and by the
    standard library. *)
Inductive exn : Type :=
| NameError (name : string)
| UnboundLocalError (name : string)
| AttributeError (attr : string)
| KeyError (key : string)
| IndexError
| TypeError
| ValueError
| OverflowError
| Raised (cls : string).

Inductive result (A : Type) : Type :=
| Ok (a : A)
| Raise (e : exn).

Arguments Ok {A} a.
Arguments Raise {A} e.

Definition bind {A B : Type} (r : result A) (k : A -> result B) : result B :=
  match r with
  | Ok a => k a
  | Raise e => Raise e
  end.

Notation "x <- c1 ;; c2" := (bind c1 (fun x => c2))
  (at level 61, c1 at next level, right associativity).
Notation "' pat <- c1 ;; c2" := (bind c1 (fun x => match x with pat => c2 end))
  (at level 61, pat pattern, c1 at next level, right associativity).

(** [for x in xs: out.append(f(x))], started from [out = []]: the first
    exception ends the loop. *)
Fixpoint for_each {A B : Type} (f : A -> result B) (xs : list A) : result (list B) :=
  match xs with
  | [] => Ok []
  | x :: xs' =>
      y <- f x ;;
      ys <- for_each f xs' ;;
      Ok (y :: ys)
  end.

(** ** Python's [str]

    A [str] is a [string] of characters below 256, compared by code point. *)
Module str.

Definition lower_char (c : ascii) : ascii :=
  let n := N_of_ascii c in
  if ((65 <=? n) && (n <=? 90))%N then ascii_of_N (n + 32) else c.

(** [s.lower()] on the letters A to Z. *)
Fixpoint lower (s : string) : string :=
  match s with
  | EmptyString => EmptyString
  | String c s' => String (lower_char c) (lower s')
  end.

End str.

(** [a, b = xs]: exactly two items, or ValueError. *)
Definition unpack2 {A : Type} (xs : list A) : result (A * A) :=
  match xs with
  | [a; b] => Ok (a, b)
  | _ => Raise ValueError
  end.

(** [xs == n] for a list [xs] and an int [n]: objects of the two types are
    never equal. *)
Definition list_eq_int {A : Type} (xs : list A) (n : Z) : bool := false.

(** ** The [datetime] module of the standard library *)
Module datetime.

Definition MINYEAR : Z := 1.
Definition MAXYEAR : Z := 9999.
Definition MAXORDINAL : Z := 3652059.

Record date : Type := mkdate { year : Z; month : Z; day : Z }.

Definition is_leap (y : Z) : bool :=
  (y mod 4 =? 0) && (negb (y mod 100 =? 0) || (y mod 400 =? 0)).

Definition days_in_month (y m : Z) : Z :=
  if m =? 2 then (if is_leap y then 29 else 28)
  else if (m =? 4) || (m =? 6) || (m =? 9) || (m =? 11) then 30
  else 31.

(** Days in the months before month [m], in a year that is not leap. *)
Definition DAYS_BEFORE_MONTH (m : Z) : Z :=
  match m with
  | 1 => 0 | 2 => 31 | 3 => 59 | 4 => 90 | 5 => 120 | 6 => 151
  | 7 => 181 | 8 => 212 | 9 => 243 | 10 => 273 | 11 => 304 | 12 => 334
  | _ => 0
  end.

Definition days_before_year (y : Z) : Z :=
  let y1 := y - 1 in
  y1 * 365 + y1 / 4 - y1 / 100 + y1 / 400.

Definition days_before_month (y m : Z) : Z :=
  DAYS_BEFORE_MONTH m + (if (2 <? m) && is_leap y then 1 else 0).

(** The bounds of a C [int], to which the constructors convert their
    arguments. *)
Definition INT_MIN : Z := -2147483648.
Definition INT_MAX : Z := 2147483647.

Definition fits_int (z : Z) : bool := (INT_MIN <=? z) && (z <=? INT_MAX).

(** [date(y, m, d)]: the three arguments are converted to C ints,
    OverflowError when one does not fit; then the fields are checked,
    ValueError outside the calendar. *)
Definition date_new (y m d : Z) : result date :=
  if negb (fits_int y && fits_int m && fits_int d) then Raise OverflowError
  else if (MINYEAR <=? y) && (y <=? MAXYEAR) && (1 <=? m) && (m <=? 12)
          && (1 <=? d) && (d <=? days_in_month y m)
  then Ok (mkdate y m d)
  else Raise ValueError.

(** [d1 == d2] and [d1 < d2]: the (year, month, day) triples are compared. *)
Definition date_eqb (d1 d2 : date) : bool :=
  (year d1 =? year d2) && (month d1 =? month d2) && (day d1 =? day d2).

Definition date_ltb (d1 d2 : date) : bool :=
  if negb (year d1 =? year d2) then year d1 <? year d2
  else if negb (month d1 =? month d2) then month d1 <? month d2
  else day d1 <? day d2.

Definition date_leb (d1 d2 : date) : bool := negb (date_ltb d2 d1).

(** [d.toordinal()]: 1 is 0001-01-01. *)
Definition toordinal (d : date) : Z :=
  days_before_year (year d) + days_before_month (year d) (month d) + day d.

Definition DI400Y : Z := 146097.
Definition DI100Y : Z := 36524.
Definition DI4Y : Z := 1461.

(** [date.fromordinal(n)], the standard library's computation. *)
Definition fromordinal (n : Z) : date :=
  let n := n - 1 in
  let n400 := n / DI400Y in
  let n := n mod DI400Y in
  let y := n400 * 400 + 1 in
  let n100 := n / DI100Y in
  let n := n mod DI100Y in
  let n4 := n / DI4Y in
  let n := n mod DI4Y in
  let n1 := n / 365 in
  let n := n mod 365 in
  let y := y + n100 * 100 + n4 * 4 + n1 in
  if (n1 =? 4) || (n100 =? 4) then mkdate (y - 1) 12 31
  else
    let leapyear := (n1 =? 3) && (negb (n4 =? 24) || (n100 =? 3)) in
    let m := Z.shiftr (n + 50) 5 in
    let preceding := DAYS_BEFORE_MONTH m + (if (2 <? m) && leapyear then 1 else 0) in
    if n <? preceding then
      let m := m - 1 in
      let dim := if (m =? 2) && leapyear then 29
                 else days_in_month 1 m in
      let preceding := preceding - dim in
      mkdate y m (n - preceding + 1)
    else mkdate y m (n - preceding + 1).

(** A [timedelta], as the number of days it spans and the microseconds left. *)
Record timedelta : Type := mktimedelta { td_days : Z; td_microseconds : Z }.

Definition US_PER_DAY : Z := 86400000000.

(** Microseconds in one unit of a keyword [timedelta] accepts. *)
Definition timedelta_unit (kw : string) : option Z :=
  if (kw =? "days")%string then Some US_PER_DAY
  else if (kw =? "seconds")%string then Some 1000000
  else if (kw =? "microseconds")%string then Some 1
  else if (kw =? "milliseconds")%string then Some 1000
  else if (kw =? "minutes")%string then Some 60000000
  else if (kw =? "hours")%string then Some 3600000000
  else if (kw =? "weeks")%string then Some (7 * US_PER_DAY)
  else None.

(** [timedelta(kw=n)]: a keyword outside the seven is a TypeError. *)
Definition timedelta_new (kw : string) (n : Z) : result timedelta :=
  match timedelta_unit kw with
  | Some u => Ok (mktimedelta ((n * u) / US_PER_DAY) ((n * u) mod US_PER_DAY))
  | None => Raise TypeError
  end.

(** [d + td]: the days of [td] are added, OverflowError outside the calendar. *)
Definition date_add (d : date) (td : timedelta) : result date :=
  let o := toordinal d + td_days td in
  if (0 <? o) && (o <=? MAXORDINAL) then Ok (fromordinal o) else Raise OverflowError.

(** A [datetime]: a date and the microseconds since its midnight. *)
Record datetime : Type := mkdatetime { dt_date : date; dt_microsecond_of_day : Z }.

(** [datetime(y, m, d)]: midnight of the day. *)
Definition datetime_new (y m d : Z) : result datetime :=
  dd <- date_new y m d ;;
  Ok (mkdatetime dd 0).

(** [dt - td] *)
Definition datetime_sub (dt : datetime) (td : timedelta) : result datetime :=
  let us := dt_microsecond_of_day dt - td_microseconds td in
  let o := toordinal (dt_date dt) - td_days td + us / US_PER_DAY in
  if (0 <? o) && (o <=? MAXORDINAL)
  then Ok (mkdatetime (fromordinal o) (us mod US_PER_DAY))
  else Raise OverflowError.

(** The abbreviated month names of the C locale, in lower case. *)
Definition month_abbr : list (string * Z) :=
  [("jan", 1); ("feb", 2); ("mar", 3); ("apr", 4); ("may", 5); ("jun", 6);
   ("jul", 7); ("aug", 8); ("sep", 9); ("oct", 10); ("nov", 11); ("dec", 12)].

Fixpoint assoc (k : string) (l : list (string * Z)) : option Z :=
  match l with
  | [] => None
  | (k', v) :: l' => if (k =? k')%string then Some v else assoc k l'
  end.

(** [datetime.strptime(s, "%b")]: [s] must be an abbreviated month name, in
    any case, and nothing else; the result is the first day of that month of
    1900. *)
Definition strptime_b (s : string) : result datetime :=
  match assoc (str.lower s) month_abbr with
  | Some m => datetime_new 1900 m 1
  | None => Raise ValueError
  end.

End datetime.

(** ** Module-level names *)

(** The names [main.py] binds at module level: its imports and its classes.
    A name a function reads and does not assign is looked up here. *)
Definition module_globals : list string :=
  ["datetime"; "total_ordering"; "ABC"; "abstractmethod"; "requests";
   "dateutil"; "BeautifulSoup"; "Source"; "DaysOfTheYearSource";
   "WikipediaSource"; "OnThisDayComSource"; "Event"; "EventType";
   "EventCollector"].

(** What a module-level name is bound to: a module, a class or a function. *)
Inductive pyobject : Type :=
| ModuleLevel (name : string).

(** Reading the global [name]: NameError when the module binds no such name. *)
Definition load_global (name : string) : result pyobject :=
  if existsb (String.eqb name) module_globals
  then Ok (ModuleLevel name)
  else Raise (NameError name).

(** [d < o] for a date [d] and a module, class or function [o]. *)
Definition date_lt_object (d : datetime.date) (o : pyobject) : result bool :=
  Raise TypeError.

(** ** EventType *)

Inductive EventType : Type :=
| NATIONAL_DAY
| HOLIDAY
| ON_THIS_DAY
| BIRTH
| DEATH.

Definition value (t : EventType) : Z :=
  match t with
  | NATIONAL_DAY => 10
  | HOLIDAY => 20
  | ON_THIS_DAY => 30
  | BIRTH => 40
  | DEATH => 41
  end.

(** [EventType.<name>]: the member of that name, AttributeError when the
    enumeration has none. *)
Definition EventType_getattr (name : string) : result EventType :=
  if (name =? "NATIONAL_DAY")%string then Ok NATIONAL_DAY
  else if (name =? "HOLIDAY")%string then Ok HOLIDAY
  else if (name =? "ON_THIS_DAY")%string then Ok ON_THIS_DAY
  else if (name =? "BIRTH")%string then Ok BIRTH
  else if (name =? "DEATH")%string then Ok DEATH
  else Raise (AttributeError name).

(** ** Source *)

(** What an Event reads of the adapter that made it: its class and its
    [weight].  [Source.weight] returns 10 and neither adapter of [main.py]
    overrides it; a subclass may. *)
Record Source : Type := mkSource { class_name : string; weight : Z }.

Definition Source_weight : Z := 10.

(** ** Event *)

(** The fields are typed as [__init__] annotates them; [end_date] is the
    field after [__init__], which is never None. *)
Record Event : Type := mkEvent {
  source : Source;
  date : datetime.date;
  end_date : datetime.date;
  title : string;
  link : string;
  type : EventType
}.

(** [Event.__init__]: [self.end_date = end_date or date] (a date is always
    truthy, so [or] takes [date] exactly when [end_date] is None). *)
Definition Event_init (src : Source) (d : datetime.date) (t l : string)
    (ty : EventType) (e : option datetime.date) : Event :=
  {| source := src;
     date := d;
     end_date := match e with Some e' => e' | None => d end;
     title := t;
     link := l;
     type := ty |}.

(** [Event.is_single_day]: [self.end_date is None or self.date == self.end_date]. *)
Definition is_single_day (self : Event) : bool :=
  datetime.date_eqb (date self) (end_date self).

(** [Event.__eq__], for [other] an Event. *)
Definition Event_eq (self other : Event) : bool :=
  (title self =? title other)%string && (link self =? link other)%string.

(** *** Comparison of the items of a list

    Python compares two lists by the first position where the items are not
    [==], and there by [<]; lists that are equal item by item and of one
    length are not [<].  [PyOrd] is the pair of those two operations on a type
    of items. *)
Class PyOrd (A : Type) : Type := {
  py_eq : A -> A -> bool;
  py_lt : A -> A -> bool
}.

#[export] Instance PyOrd_Z : PyOrd Z :=
  {| py_eq := Z.eqb; py_lt := Z.ltb |}.

#[export] Instance PyOrd_date : PyOrd datetime.date :=
  {| py_eq := datetime.date_eqb; py_lt := datetime.date_ltb |}.

#[export] Instance PyOrd_str : PyOrd string :=
  {| py_eq := String.eqb; py_lt := String.ltb |}.

(** A sequence with one more item at its end. *)
#[export] Instance PyOrd_snoc {A B : Type} `{PyOrd A} `{PyOrd B} : PyOrd (A * B) :=
  {| py_eq := fun x y => py_eq (fst x) (fst y) && py_eq (snd x) (snd y);
     py_lt := fun x y =>
       if negb (py_eq (fst x) (fst y)) then py_lt (fst x) (fst y)
       else py_lt (snd x) (snd y) |}.

(** The five items of [order_index], in the order the list holds them. *)
Definition order_key : Type := (Z * Z * datetime.date * Z * string)%type.

(** [Event.order_index] *)
Definition order_index (self : Event) : order_key :=
  (weight (source self),
   (if is_single_day self then 0 else 1),
   date self,
   value (type self),
   title self).

(** [Event.__lt__], for [other] an Event. *)
Definition Event_lt (self other : Event) : bool :=
  py_lt (order_index self) (order_index other).

(** ** sorted *)

(** [insert lt x l] puts [x] in front of the first item that is not [<] it:
    [x] stays ahead of the items it ties with. *)
Fixpoint insert {A : Type} (lt : A -> A -> bool) (x : A) (l : list A) : list A :=
  match l with
  | [] => [x]
  | y :: l' => if lt y x then y :: insert lt x l' else x :: y :: l'
  end.

(** [sorted(l)]: the stable sort of [l] by [<], as an insertion sort. *)
Fixpoint sorted {A : Type} (lt : A -> A -> bool) (l : list A) : list A :=
  match l with
  | [] => []
  | x :: l' => insert lt x (sorted lt l')
  end.

(** ** The outside of the program *)

(** *** BeautifulSoup

    A tag: its name, its attributes, and its contents, which are strings and
    tags. *)
Module bs4.

Inductive Node : Type :=
| NavigableString (s : string)
| Element (t : Tag)
with Tag : Type :=
| mkTag (name : string) (attrs : list (string * string)) (contents : list Node).

Definition name (t : Tag) : string := match t with mkTag n _ _ => n end.

Definition attrs (t : Tag) : list (string * string) :=
  match t with mkTag _ a _ => a end.

Definition contents (t : Tag) : list Node :=
  match t with mkTag _ _ c => c end.

(** The tags inside [t], at any depth, in the order of the document. *)
Fixpoint descendants (t : Tag) : list Tag :=
  match t with
  | mkTag _ _ cs =>
      (fix inside (cs : list Node) : list Tag :=
         match cs with
         | [] => []
         | NavigableString _ :: cs' => inside cs'
         | Element c :: cs' => (c :: descendants c ++ inside cs')%list
         end) cs
  end.

(** [t.find_all(nm)], and [t.find_all()] when [nm] is None: the tags inside
    [t] of that name, or all of them. *)
Definition find_all (nm : option string) (t : Tag) : list Tag :=
  match nm with
  | Some n => filter (fun c => (name c =? n)%string) (descendants t)
  | None => descendants t
  end.

(** [t.find(nm)]: the first of them, or None. *)
Definition find (nm : string) (t : Tag) : option Tag :=
  match find_all (Some nm) t with
  | c :: _ => Some c
  | [] => None
  end.

(** [t.attr], for [attr] a name that the class Tag does not define
    ([content], [split], [strip]): [Tag.__getattr__] returns [t.find(attr)]. *)
Definition getattr (t : Tag) (attr : string) : option Tag := find attr t.

(** [x in t]: [Tag.__contains__] is [x in t.contents]; a string of the
    contents equals [x] when it is the same text, a tag never does. *)
Definition contains (t : Tag) (x : string) : bool :=
  existsb (fun n => match n with
                    | NavigableString s => (s =? x)%string
                    | Element _ => false
                    end) (contents t).

(** [t.attr(arg)], and [t.attr()] when [arg] is None: what [t.attr] finds is
    called.  None is not callable (TypeError); calling a tag is its
    [find_all]. *)
Definition call (t : Tag) (attr : string) (arg : option string)
  : result (list Tag) :=
  match getattr t attr with
  | None => Raise TypeError
  | Some found => Ok (find_all arg found)
  end.

Fixpoint assoc (k : string) (l : list (string * string)) : option string :=
  match l with
  | [] => None
  | (k', v) :: l' => if (k =? k')%string then Some v else assoc k l'
  end.

(** [t[key]]: the attribute of the tag, KeyError when it has none of that
    name. *)
Definition getitem (t : Tag) (key : string) : result string :=
  match assoc key (attrs t) with
  | Some v => Ok v
  | None => Raise (KeyError key)
  end.

End bs4.

(** One [card--day] block of a daysoftheyear.com page, as far as
    [fetch_events] reads it: the [date_day] block that line 63 finds in it,
    and the anchor that line 79 finds in its [card__title] block. *)
Record Card : Type := mkCard {
  card_date : bs4.Tag;
  card_title_tag : bs4.Tag
}.

(** What the card loop passes to [dateutil.parser.parse]: a tag, or the list
    of tags that calling a tag returns. *)
Inductive parse_arg : Type :=
| ParseTag (t : bs4.Tag)
| ParseResultSet (l : list bs4.Tag).

(** One entry of the Wikipedia feed: its [year] when it has one, its [text],
    and, for each of its [pages], the URL at
    [content_urls -> desktop -> page]. *)
Record Entry : Type := mkEntry {
  entry_year : option Z;
  entry_text : string;
  entry_pages : list string
}.

(** What [resp.json()] returns for the feed. *)
Record ApiData : Type := mkApiData {
  births : list Entry;
  deaths : list Entry;
  events : list Entry;
  holidays : list Entry
}.

(** All that the program reads from outside itself.
    - [date_today]: [datetime.date.today()];
    - [get_day_cards y m d]: [requests.get] of [url_format] filled with
      [y], [m], [d], parsed by BeautifulSoup, then
      [find_all("div", class card--day)];
    - [get_feed m d]: [requests.get] of [api_format] filled with [m], [d],
      then [resp.json()];
    - [dateutil_parse a]: [dateutil.parser.parse(a)]. *)
Record World : Type := mkWorld {
  date_today : datetime.date;
  get_day_cards : Z -> Z -> Z -> result (list Card);
  get_feed : Z -> Z -> result ApiData;
  dateutil_parse : parse_arg -> result datetime.datetime
}.

(** ** The first three lines of both [fetch_events]

    [[
    date = datetime.date(year or datetime.date.today().year, month, day)
    if year is None and date < today:
        date += datetime.timedelta(years=1)
    ]]
    Lines 54-56 and lines 91-93 are the same text. *)

(** [year or default]: an int is falsy when it is 0. *)
Definition year_or (year : option Z) (default : Z) : Z :=
  match year with
  | Some y => if y =? 0 then default else y
  | None => default
  end.

Definition fetch_date (w : World) (day month : Z) (year : option Z)
  : result datetime.date :=
  date0 <- datetime.date_new (year_or year (datetime.year (date_today w))) month day ;;
  match year with
  | None =>
      today <- load_global "today" ;;
      earlier <- date_lt_object date0 today ;;
      if (earlier : bool)
      then td <- datetime.timedelta_new "years" 1 ;;
           datetime.date_add date0 td
      else Ok date0
  | Some _ => Ok date0
  end.

(** ** DaysOfTheYearSource *)

(** What the local names [event_date] and [end_date] of the card loop are
    bound to when [dateutil] returns: a datetime, or the bound method [.date]
    of a datetime, which lines 68 and 69 read and do not call. *)
Inductive date_value : Type :=
| DateTime (dt : datetime.datetime)
| DateMethod (dt : datetime.datetime).

(** An argument of a constructor or of [strptime]. *)
Inductive pyarg : Type :=
| PInt (z : Z)
| PStr (s : string)
| PTag (t : bs4.Tag).

(** [operator.index] of a constructor argument: an int passes, anything
    else is a TypeError. *)
Definition as_index (a : pyarg) : result Z :=
  match a with
  | PInt z => Ok z
  | PStr _ => Raise TypeError
  | PTag _ => Raise TypeError
  end.

(** [datetime.datetime.strptime(a, "%b")]: [a] must be a [str]. *)
Definition strptime (a : pyarg) : result datetime.datetime :=
  match a with
  | PStr s => datetime.strptime_b s
  | PInt _ => Raise TypeError
  | PTag _ => Raise TypeError
  end.

(** Lines 72-75, the body of the [elif], for [card_date.content] a tag. *)
Definition month_year_dates (content : bs4.Tag)
  : result (date_value * option date_value) :=
  pieces <- bs4.call content "split" (Some ", ") ;;
  '(month, year) <- unpack2 pieces ;;
  month <- strptime (PTag month) ;;
  y <- as_index (PTag year) ;;
  event_date <- datetime.datetime_new y (datetime.month (datetime.dt_date month)) 1 ;;
  y' <- as_index (PTag year) ;;
  next_month <- datetime.datetime_new y'
                  ((datetime.month (datetime.dt_date month)) mod 12 + 1) 1 ;;
  one_day <- datetime.timedelta_new "days" 1 ;;
  end_date <- datetime.datetime_sub next_month one_day ;;
  Ok (DateTime event_date, Some (DateTime end_date)).

(** Lines 64-78: the values of [event_date] and [end_date] for one card,
    from [card_date.content], which is None or a tag.  On None, the test
    ["-" in card_date.content] of line 65 is a TypeError. *)
Definition card_dates (w : World) (content : option bs4.Tag)
  : result (date_value * option date_value) :=
  match content with
  | None => Raise TypeError
  | Some c =>
      if bs4.contains c "-" then
        pieces <- bs4.call c "split" (Some "-") ;;
        '(start, end_) <- unpack2 pieces ;;
        stripped <- bs4.call start "strip" None ;;
        event_date <- dateutil_parse w (ParseResultSet stripped) ;;
        stripped' <- bs4.call end_ "strip" None ;;
        end_date <- dateutil_parse w (ParseResultSet stripped') ;;
        Ok (DateMethod event_date, Some (DateMethod end_date))
      else
        words <- bs4.call c "split" None ;;
        if list_eq_int words 2 then month_year_dates c
        else
          event_date <- dateutil_parse w (ParseTag c) ;;
          Ok (DateTime event_date, None)
  end.

(** The enumeration has no member of the name that line 82 reads. *)
Lemma NATIONAL_DAY_OF_X_missing (ty : EventType) :
  EventType_getattr "NATIONAL_DAY_OF_X" <> Ok ty.
Proof. discriminate. Qed.

(** A call whose argument [r] raises: the call is not made, and the
    exception of the argument is the outcome. *)
Definition raises {A B : Type} (r : result A) : (forall a, r <> Ok a) -> result B :=
  match r as r' return (forall a, r' <> Ok a) -> result B with
  | Ok a => fun never => False_rect _ (never a eq_refl)
  | Raise e => fun _ => Raise e
  end.

(** Lines 63-83: the body of the card loop.  The arguments of [Event(...)]
    are evaluated from left to right; the fifth,
    [EventType.NATIONAL_DAY_OF_X], raises, and [Event] is not called. *)
Definition card_event (w : World) (self : Source) (day_card : Card) : result Event :=
  '(event_date, end_date) <-
     card_dates w (bs4.getattr (card_date day_card) "content") ;;
  let event_title := bs4.getattr (card_title_tag day_card) "content" in
  event_link <- bs4.getitem (card_title_tag day_card) "href" ;;
  raises (EventType_getattr "NATIONAL_DAY_OF_X") NATIONAL_DAY_OF_X_missing.

(** [DaysOfTheYearSource.fetch_events] *)
Definition DaysOfTheYearSource_fetch_events (w : World) (self : Source)
    (day month : Z) (year : option Z) : result (list Event) :=
  date0 <- fetch_date w day month year ;;
  day_cards <- get_day_cards w (datetime.year date0) (datetime.month date0)
                 (datetime.day date0) ;;
  for_each (card_event w self) day_cards.

(** ** WikipediaSource *)

(** [entry['year']] *)
Definition getitem_year (e : Entry) : result Z :=
  match entry_year e with
  | Some y => Ok y
  | None => Raise (KeyError "year")
  end.

(** [entry['pages'][0]['content_urls']['desktop']['page']] *)
Definition first_page (e : Entry) : result string :=
  match entry_pages e with
  | p :: _ => Ok p
  | [] => Raise IndexError
  end.

(** Reading a local name that a [for] loop binds, after that loop: the last
    item, and UnboundLocalError when the loop ran over nothing. *)
Definition load_loop_variable {A : Type} (name : string) (xs : list A) : result A :=
  match rev xs with
  | x :: _ => Ok x
  | [] => Raise (UnboundLocalError name)
  end.

(** [WikipediaSource.fetch_events] *)
Definition WikipediaSource_fetch_events (w : World) (self : Source)
    (day month : Z) (year : option Z) : result (list Event) :=
  date0 <- fetch_date w day month year ;;
  api_data <- get_feed w month day ;;
  born <- for_each (fun birth_data =>
            y <- getitem_year birth_data ;;
            d <- datetime.date_new y month day ;;
            l <- first_page birth_data ;;
            Ok (Event_init self d (entry_text birth_data) l BIRTH None))
          (births api_data) ;;
  died <- for_each (fun death_data =>
            y <- getitem_year death_data ;;
            d <- datetime.date_new y month day ;;
            birth_data <- load_loop_variable "birth_data" (births api_data) ;;
            l <- first_page birth_data ;;
            Ok (Event_init self d (entry_text death_data) l DEATH None))
          (deaths api_data) ;;
  happened <- for_each (fun event_data =>
            y <- getitem_year event_data ;;
            d <- datetime.date_new y month day ;;
            l <- first_page event_data ;;
            Ok (Event_init self d (entry_text event_data) l ON_THIS_DAY None))
          (events api_data) ;;
  observed <- for_each (fun holiday_data =>
            d <- datetime.date_new (datetime.year date0) month day ;;
            l <- first_page holiday_data ;;
            Ok (Event_init self d (entry_text holiday_data) l HOLIDAY None))
          (holidays api_data) ;;
  Ok (born ++ died ++ happened ++ observed)%list.

(** ** The adapters as objects, and the collector *)

(** A source object: what an Event keeps of it, and its [fetch_events]. *)
Record Adapter : Type := mkAdapter {
  adapter_self : Source;
  fetch_events : World -> Z -> Z -> option Z -> result (list Event)
}.

Definition DaysOfTheYearSource_self : Source :=
  mkSource "DaysOfTheYearSource" Source_weight.

Definition WikipediaSource_self : Source :=
  mkSource "WikipediaSource" Source_weight.


Definition WikipediaSource : Adapter :=
  mkAdapter WikipediaSource_self
    (fun w => WikipediaSource_fetch_events w WikipediaSource_self).

Record EventCollector : Type := mkEventCollector { sources : list Adapter }.


(** The loop of [events_today]:
    [for source in self.sources: all_events += source.fetch_events(day, month)]. *)
Fixpoint collect (w : World) (day month : Z) (srcs : list Adapter)
    (all_events : list Event) : result (list Event) :=
  match srcs with
  | [] => Ok all_events
  | source0 :: srcs' =>
      fetched <- fetch_events source0 w day month None ;;
      collect w day month srcs' (all_events ++ fetched)
  end.

(** [EventCollector.events_today] *)
Definition events_today (w : World) (self : EventCollector) : result (list Event) :=
  let t_day := date_today w in
  all_events <- collect w (datetime.day t_day) (datetime.month t_day) (sources self) [] ;;
  Ok (sorted Event_lt all_events).

(** In the run of [events_today] in [w], the adapter [s] returns [evs]. *)
Definition fetched (w : World) (s : Adapter) (evs : list Event) : Prop :=
  fetch_events s w (datetime.day (date_today w)) (datetime.month (date_today w)) None
  = Ok evs.

(** The second item of [order_index]. *)
Definition single_day_rank (e : Event) : Z := if is_single_day e then 0 else 1.

(** [a] and [b] tie: the five items of their keys are equal, one by one. *)
Definition tie (a b : Event) : Prop :=
  weight (source a) = weight (source b)
  /\ single_day_rank a = single_day_rank b
  /\ date a = date b
  /\ value (type a) = value (type b)
  /\ title a = title b.

(** [x] does not have to stand after [y]: [y < x] is false. *)
Definition not_after {A : Type} (lt : A -> A -> bool) (x y : A) : Prop :=
  lt y x = false.

(** ** Laws of the comparisons

    What makes [py_lt] a strict total order whose ties are the items that
    are [py_eq]. *)
Class PyOrdLaws (A : Type) `{PyOrd A} : Prop := {
  py_eq_true : forall x y : A, py_eq x y = true <-> x = y;
  py_lt_irrefl : forall x : A, py_lt x x = false;
  py_lt_trans : forall x y z : A,
      py_lt x y = true -> py_lt y z = true -> py_lt x z = true;
  py_lt_total : forall x y : A, py_lt x y = true \/ x = y \/ py_lt y x = true
}.

(** Sample inputs, named after what they hold. *)
Module Sample.

Definition sep_15 : datetime.date := datetime.mkdate 2022 9 15.
Definition oct_15 : datetime.date := datetime.mkdate 2022 10 15.
Definition sep_20 : datetime.date := datetime.mkdate 2022 9 20.

(** [dateutil.parser.parse] takes a string or a stream and refuses anything
    else: the card loop hands it tags. *)
Definition parse (a : parse_arg) : result datetime.datetime := Raise TypeError.

(** The three cards that the comments of [fetch_events] quote, as
    BeautifulSoup reads them: a block that holds its text, and an anchor. *)
Definition date_block (classes text : string) : bs4.Tag :=
  bs4.mkTag "div" [("class", classes)] [bs4.NavigableString text].

Definition anchor (href text : string) : bs4.Tag :=
  bs4.mkTag "a" [("href", href)] [bs4.NavigableString text].

Definition range_card : Card :=
  mkCard (date_block "date_day" "Thu Sep 15th, 2022 - Sat Oct 15th, 2022")
         (anchor "https://www.daysoftheyear.com/days/hispanic-heritage-month/"
                 "Hispanic Heritage Month").

Definition month_card : Card :=
  mkCard (date_block "date_day date_day_month" "September, 2022")
         (anchor "https://www.daysoftheyear.com/days/honey-month/" "Honey Month").

Definition day_card : Card :=
  mkCard (date_block "date_day" "Tue Sep 20th, 2022")
         (anchor "https://www.daysoftheyear.com/days/pepperoni-pizza-day/"
                 "Pepperoni Pizza Day").

Definition birth : Entry := mkEntry (Some 1990) "B" ["http://b"].
Definition death : Entry := mkEntry (Some 2000) "D" ["http://d"].

Definition feed : ApiData := mkApiData [birth] [death] [] [].

(** The day is 2022-09-20; every page holds the three cards; the feed holds
    one birth and one death. *)
Definition world : World :=
  mkWorld sep_20
          (fun _ _ _ => Ok [range_card; month_card; day_card])
          (fun _ _ => Ok feed)
          parse.

(** A source whose class overrides [weight]. *)
Definition light : Source := mkSource "LightSource" 5.

Definition heavy_early : Event :=
  Event_init DaysOfTheYearSource_self (datetime.mkdate 1900 1 1) "A" "http://a"
             NATIONAL_DAY None.

Definition light_late : Event :=
  Event_init light sep_15 "Z" "http://z" DEATH (Some oct_15).

(** One fact fetched twice, with two dates. *)
Definition fact : Event :=
  Event_init WikipediaSource_self sep_15 "X" "http://x" BIRTH None.

Definition fact_shifted : Event :=
  Event_init WikipediaSource_self sep_20 "X" "http://x" BIRTH None.

(** An adapter that returns [evs], and one that raises [e]. *)
Definition returning (evs : list Event) : Adapter :=
  mkAdapter light (fun _ _ _ _ => Ok evs).

Definition raising (e : exn) : Adapter :=
  mkAdapter light (fun _ _ _ _ => Raise e).

End Sample.

(** ** The comparisons that [total_ordering] adds to Event

    Line 139 decorates the class; from [__lt__] and [__eq__] the decorator
    defines [__gt__] as [not (a < b) and a != b], [__le__] as
    [a < b or a == b] and [__ge__] as [not (a < b)]; [!=] is the negation of
    [__eq__]. *)
Definition Event_ne (self other : Event) : bool := negb (Event_eq self other).

Definition Event_gt (self other : Event) : bool :=
  negb (Event_lt self other) && Event_ne self other.

Definition Event_le (self other : Event) : bool :=
  Event_lt self other || Event_eq self other.

Definition Event_ge (self other : Event) : bool := negb (Event_lt self other).

(** ** The two addresses

    [url_format] and [api_format], filled by [str.format]. *)

Fixpoint zeros (n : nat) : string :=
  match n with
  | O => EmptyString
  | S k => String "0" (zeros k)
  end.

(** [format(n, "0<width>")] for an int: the decimal digits of [n], with
    zeros in front up to [width] characters, after the sign if there is one. *)
Definition format_int (width : nat) (n : Z) : string :=
  let digits := NilZero.string_of_uint (N.to_uint (Z.abs_N n)) in
  if n <? 0
  then String "-" (zeros (width - 1 - String.length digits) ++ digits)
  else zeros (width - String.length digits) ++ digits.

(** [url_format.format(year=y, month=m, day=d)] *)
Definition DaysOfTheYearSource_url (y m d : Z) : string :=
  "https://www.daysoftheyear.com/days/" ++ format_int 4 y ++ "/"
    ++ format_int 2 m ++ "/" ++ format_int 2 d ++ "/".

(** [api_format.format(month=m, day=d)] *)
Definition WikipediaSource_api_url (m d : Z) : string :=
  "https://en.wikipedia.org/api/rest_v1/feed/onthisday/all/"
    ++ format_int 2 m ++ "/" ++ format_int 2 d.

(** The number a string of decimal digits writes. *)
Fixpoint int_of_digits (acc : Z) (s : string) : Z :=
  match s with
  | EmptyString => acc
  | String c s' => int_of_digits (acc * 10 + (Z.of_N (N_of_ascii c) - 48)) s'
  end.

(** Written with [width] digits, the numbers from [lo] to [hi] are read
    back as themselves. *)
Definition reads_back (width : nat) (lo hi : Z) : bool :=
  forallb (fun k =>
             let y := lo + Z.of_nat k in
             (int_of_digits 0 (format_int width y) =? y)
             && Nat.eqb (String.length (format_int width y)) width)
          (seq 0 (Z.to_nat (hi - lo + 1))).

(** What the entries of a feed need for [WikipediaSource.fetch_events] to
    build their records on day [day] of month [month]. *)
Definition dated (month day : Z) (entry : Entry) : Prop :=
  exists y d, entry_year entry = Some y /\ datetime.date_new y month day = Ok d.

Definition paged (entry : Entry) : Prop := entry_pages entry <> [].

(** More sample inputs. *)
Module Cases.

(** Two facts with one ordering key and two links. *)
Definition mirror_a : Event :=
  Event_init WikipediaSource_self Sample.sep_15 "X" "http://x/a" BIRTH None.

Definition mirror_b : Event :=
  Event_init WikipediaSource_self Sample.sep_15 "X" "http://x/b" BIRTH None.

Definition event_1969 : Entry := mkEntry (Some 1969) "E" ["http://e"].
Definition holiday : Entry := mkEntry None "H" ["http://h"].
Definition before_christ : Entry := mkEntry (Some (-44)) "Ides" ["http://ides"].
Definition pageless : Entry := mkEntry (Some 1990) "P" [].

Definition feed_of (api : ApiData) : World :=
  mkWorld Sample.sep_20 (fun _ _ _ => Ok []) (fun _ _ => Ok api) Sample.parse.

Definition full_feed : ApiData :=
  mkApiData [Sample.birth] [Sample.death] [event_1969] [holiday].

End Cases.

(** * Properties *)

(** ** The comparisons are strict total orders *)

#[export] Instance PyOrdLaws_Z : PyOrdLaws Z.
Proof.
  split; simpl; intros.
  - apply Z.eqb_eq.
  - apply Z.ltb_irrefl.
  - rewrite Z.ltb_lt in *. lia.
  - rewrite !Z.ltb_lt. lia.
Qed.

Lemma date_eqb_eq (d1 d2 : datetime.date) :
  datetime.date_eqb d1 d2 = true <-> d1 = d2.
Proof.
  destruct d1 as [y1 m1 d1], d2 as [y2 m2 d2].
  unfold datetime.date_eqb; simpl.
  rewrite !andb_true_iff, !Z.eqb_eq.
  split.
  - intros [[-> ->] ->]. reflexivity.
  - intros E. injection E as -> -> ->. auto.
Qed.

(** [d1 < d2] by cases: the first field that differs decides. *)
Lemma date_ltb_cases (d1 d2 : datetime.date) :
  datetime.date_ltb d1 d2 = true <->
  datetime.year d1 < datetime.year d2
  \/ (datetime.year d1 = datetime.year d2 /\ datetime.month d1 < datetime.month d2)
  \/ (datetime.year d1 = datetime.year d2 /\ datetime.month d1 = datetime.month d2
      /\ datetime.day d1 < datetime.day d2).
Proof.
  unfold datetime.date_ltb.
  destruct (Z.eqb_spec (datetime.year d1) (datetime.year d2)) as [Ey | Ny]; simpl.
  - destruct (Z.eqb_spec (datetime.month d1) (datetime.month d2)) as [Em | Nm]; simpl;
      rewrite Z.ltb_lt; lia.
  - rewrite Z.ltb_lt. lia.
Qed.

#[export] Instance PyOrdLaws_date : PyOrdLaws datetime.date.
Proof.
  split; simpl.
  - apply date_eqb_eq.
  - intros x. destruct (datetime.date_ltb x x) eqn:E; [ | reflexivity ].
    apply date_ltb_cases in E. lia.
  - intros x y z H1 H2. rewrite date_ltb_cases in *. lia.
  - intros [y1 m1 d1] [y2 m2 d2]. rewrite !date_ltb_cases. simpl.
    destruct (Z.lt_trichotomy y1 y2) as [ | [ -> | ]]; [ lia | | lia ].
    destruct (Z.lt_trichotomy m1 m2) as [ | [ -> | ]]; [ lia | | lia ].
    destruct (Z.lt_trichotomy d1 d2) as [ | [ -> | ]]; [ lia | | lia ].
    right. left. reflexivity.
Qed.

Lemma ascii_compare_refl (c : ascii) : Ascii.compare c c = Eq.
Proof. unfold Ascii.compare. apply N.compare_refl. Qed.

Lemma string_compare_refl (s : string) : String.compare s s = Eq.
Proof.
  induction s as [ | c s IH]; simpl; [ reflexivity | ].
  rewrite ascii_compare_refl. exact IH.
Qed.

Lemma ascii_compare_lt_trans (a b c : ascii) :
  Ascii.compare a b = Lt -> Ascii.compare b c = Lt -> Ascii.compare a c = Lt.
Proof.
  unfold Ascii.compare. rewrite !N.compare_lt_iff. lia.
Qed.

Lemma string_compare_lt_trans (s1 : string) :
  forall s2 s3,
    String.compare s1 s2 = Lt -> String.compare s2 s3 = Lt ->
    String.compare s1 s3 = Lt.
Proof.
  induction s1 as [ | c1 s1 IH]; intros [ | c2 s2] [ | c3 s3]; simpl;
    try discriminate; try reflexivity.
  destruct (Ascii.compare c1 c2) eqn:E12; try discriminate;
    destruct (Ascii.compare c2 c3) eqn:E23; try discriminate; intros H1 H2.
  - apply Ascii.compare_eq_iff in E12, E23. subst.
    rewrite ascii_compare_refl. eapply IH; eassumption.
  - apply Ascii.compare_eq_iff in E12. subst. rewrite E23. reflexivity.
  - apply Ascii.compare_eq_iff in E23. subst. rewrite E12. reflexivity.
  - rewrite (ascii_compare_lt_trans _ _ _ E12 E23). reflexivity.
Qed.

#[export] Instance PyOrdLaws_str : PyOrdLaws string.
Proof.
  split; simpl.
  - apply String.eqb_eq.
  - intros x. unfold String.ltb. rewrite string_compare_refl. reflexivity.
  - intros x y z. unfold String.ltb.
    destruct (String.compare x y) eqn:E1; try discriminate.
    destruct (String.compare y z) eqn:E2; try discriminate.
    rewrite (string_compare_lt_trans _ _ _ E1 E2). reflexivity.
  - intros x y. unfold String.ltb.
    rewrite (String.compare_antisym y x).
    destruct (String.compare x y) eqn:E; simpl; auto.
    right. left. apply String.compare_eq_iff. exact E.
Qed.

#[export] Instance PyOrdLaws_snoc {A B : Type} `{PyOrdLaws A} `{PyOrdLaws B} :
  PyOrdLaws (A * B).
Proof.
  split; simpl.
  - intros [a b] [a' b']; simpl.
    rewrite andb_true_iff, !py_eq_true. split.
    + intros [-> ->]. reflexivity.
    + intros E. injection E as -> ->. auto.
  - intros [a b]; simpl.
    assert (E : py_eq a a = true) by (apply py_eq_true; reflexivity).
    rewrite E. simpl. apply py_lt_irrefl.
  - intros [a b] [a' b'] [a'' b'']; simpl.
    destruct (py_eq a a') eqn:E1; simpl.
    + apply py_eq_true in E1. subst a'.
      destruct (py_eq a a'') eqn:E2; simpl; [ | auto ].
      apply py_lt_trans.
    + destruct (py_eq a' a'') eqn:E2; simpl.
      * apply py_eq_true in E2. subst a''. rewrite E1. simpl. auto.
      * intros L1 L2.
        assert (L : py_lt a a'' = true) by (eapply py_lt_trans; eassumption).
        destruct (py_eq a a'') eqn:E3; simpl; [ | exact L ].
        apply py_eq_true in E3. subst a''.
        rewrite py_lt_irrefl in L. discriminate.
  - intros [a b] [a' b']; simpl.
    destruct (py_lt_total a a') as [L | [-> | L]].
    + left. destruct (py_eq a a') eqn:E; simpl; [ | exact L ].
      apply py_eq_true in E. subst. rewrite py_lt_irrefl in L. discriminate.
    + assert (E : py_eq a' a' = true) by (apply py_eq_true; reflexivity).
      rewrite E. simpl.
      destruct (py_lt_total b b') as [L | [-> | L]]; auto.
    + right. right. destruct (py_eq a' a) eqn:E; simpl; [ | exact L ].
      apply py_eq_true in E. subst. rewrite py_lt_irrefl in L. discriminate.
Qed.

Lemma order_key_laws : PyOrdLaws order_key.
Proof. unfold order_key. typeclasses eauto. Qed.

Lemma Event_lt_irrefl (a : Event) : Event_lt a a = false.
Proof. unfold Event_lt. apply (@py_lt_irrefl _ _ order_key_laws). Qed.

Lemma Event_lt_trans (a b c : Event) :
  Event_lt a b = true -> Event_lt b c = true -> Event_lt a c = true.
Proof. unfold Event_lt. apply (@py_lt_trans _ _ order_key_laws). Qed.

Lemma Event_lt_total (a b : Event) :
  Event_lt a b = true \/ order_index a = order_index b \/ Event_lt b a = true.
Proof. unfold Event_lt. apply (@py_lt_total _ _ order_key_laws). Qed.

Lemma Event_lt_asym (a b : Event) :
  Event_lt a b = true -> Event_lt b a = false.
Proof.
  intros H. destruct (Event_lt b a) eqn:E; [ | reflexivity ].
  pose proof (Event_lt_trans _ _ _ H E) as L.
  rewrite Event_lt_irrefl in L. discriminate.
Qed.

Lemma Event_lt_key (a b : Event) :
  order_index a = order_index b -> Event_lt a b = false.
Proof.
  unfold Event_lt. intros ->. apply (@py_lt_irrefl _ _ order_key_laws).
Qed.

Lemma Event_lt_negtrans (a b c : Event) :
  Event_lt a c = true -> Event_lt a b = true \/ Event_lt b c = true.
Proof.
  intros L. destruct (Event_lt_total a b) as [Lab | [E | Lba]].
  - left. exact Lab.
  - right. unfold Event_lt in *. rewrite <- E. exact L.
  - right. eapply Event_lt_trans; eassumption.
Qed.

(** ** [sorted] returns a sorted rearrangement *)

Section SortedFacts.

Variable A : Type.
Variable lt : A -> A -> bool.

Lemma insert_perm (x : A) (l : list A) : Permutation (insert lt x l) (x :: l).
Proof.
  induction l as [ | y l IH]; simpl.
  - apply Permutation_refl.
  - destruct (lt y x).
    + eapply perm_trans; [ apply perm_skip; exact IH | apply perm_swap ].
    + apply Permutation_refl.
Qed.

Lemma sorted_perm (l : list A) : Permutation (sorted lt l) l.
Proof.
  induction l as [ | x l IH]; simpl.
  - apply perm_nil.
  - eapply perm_trans; [ apply insert_perm | apply perm_skip; exact IH ].
Qed.


Hypothesis lt_asym : forall x y, lt x y = true -> lt y x = false.
Hypothesis lt_negtrans :
  forall x y z, lt x z = true -> lt x y = true \/ lt y z = true.

Lemma not_after_trans (x y z : A) :
  not_after lt x y -> not_after lt y z -> not_after lt x z.
Proof.
  unfold not_after. intros Hyx Hzy.
  destruct (lt z x) eqn:E; [ | reflexivity ].
  destruct (lt_negtrans z y x E) as [L | L]; congruence.
Qed.

Lemma insert_sorted (x : A) (l : list A) :
  StronglySorted (not_after lt) l -> StronglySorted (not_after lt) (insert lt x l).
Proof.
  induction 1 as [ | y l Hs IH Hall]; simpl.
  - constructor; constructor.
  - destruct (lt y x) eqn:E.
    + constructor; [ exact IH | ].
      rewrite Forall_forall in *. intros z Hz.
      apply (Permutation_in _ (insert_perm x l)) in Hz.
      destruct Hz as [<- | Hz]; [ apply lt_asym; exact E | auto ].
    + constructor; [ constructor; assumption | ].
      constructor; [ exact E | ].
      rewrite Forall_forall in *. intros z Hz.
      eapply not_after_trans; [ exact E | auto ].
Qed.

Lemma sorted_sorted (l : list A) : StronglySorted (not_after lt) (sorted lt l).
Proof.
  induction l as [ | x l IH]; simpl.
  - constructor.
  - apply insert_sorted. exact IH.
Qed.

End SortedFacts.

Lemma sorted_events_sorted (l : list Event) :
  StronglySorted (not_after Event_lt) (sorted Event_lt l).
Proof.
  apply sorted_sorted.
  - apply Event_lt_asym.
  - apply Event_lt_negtrans.
Qed.

(** In a sorted list, what stands after an item is not [<] it. *)
Lemma sorted_events_after (l l1 l2 : list Event) (a b : Event) :
  sorted Event_lt l = (l1 ++ b :: l2)%list -> In a l2 -> Event_lt a b = false.
Proof.
  intros E Ha. pose proof (sorted_events_sorted l) as S. rewrite E in S.
  clear E. induction l1 as [ | x l1 IH]; simpl in S.
  - apply StronglySorted_inv in S. destruct S as [_ F].
    rewrite Forall_forall in F. apply F. exact Ha.
  - apply StronglySorted_inv in S. destruct S as [S _]. auto.
Qed.

(** ** The ordering key, item by item *)

(** [a < b] exactly when, at the first of the five items where the keys
    differ, the item of [a] is the smaller. *)
Lemma Event_lt_lexicographic (a b : Event) :
  Event_lt a b = true <->
  weight (source a) < weight (source b)
  \/ (weight (source a) = weight (source b)
      /\ (single_day_rank a < single_day_rank b
          \/ (single_day_rank a = single_day_rank b
              /\ (datetime.date_ltb (date a) (date b) = true
                  \/ (date a = date b
                      /\ (value (type a) < value (type b)
                          \/ (value (type a) = value (type b)
                              /\ String.ltb (title a) (title b) = true))))))).
Proof.
  unfold Event_lt, order_index. fold (single_day_rank a) (single_day_rank b).
  generalize (single_day_rank a) (single_day_rank b); intros s1 s2.
  generalize (weight (source a)) (weight (source b)); intros w1 w2.
  generalize (value (type a)) (value (type b)); intros t1 t2.
  cbn [py_lt py_eq PyOrd_snoc PyOrd_Z PyOrd_date PyOrd_str fst snd].
  destruct (Z.eqb_spec w1 w2) as [Ew | Nw];
    cbn [andb negb]; [ | rewrite Z.ltb_lt; lia ].
  destruct (Z.eqb_spec s1 s2) as [Es | Ns];
    cbn [andb negb]; [ | rewrite Z.ltb_lt; lia ].
  destruct (datetime.date_eqb (date a) (date b)) eqn:Ed; cbn [andb negb].
  - apply date_eqb_eq in Ed.
    assert (Il : datetime.date_ltb (date a) (date b) = false)
      by (rewrite Ed; apply (@py_lt_irrefl _ _ PyOrdLaws_date)).
    destruct (Z.eqb_spec t1 t2) as [Et | Nt]; cbn [andb negb].
    + rewrite Il. intuition (try lia; try discriminate).
    + rewrite Il, Z.ltb_lt. intuition (try lia; try discriminate).
  - assert (Nd : date a <> date b)
      by (intros E; apply date_eqb_eq in E; congruence).
    intuition (try lia; try congruence).
Qed.

Lemma tie_order_index (a b : Event) : tie a b <-> order_index a = order_index b.
Proof.
  unfold tie, order_index. fold (single_day_rank a) (single_day_rank b). split.
  - intros (-> & -> & -> & -> & ->). reflexivity.
  - intros E. injection E as -> -> -> -> ->. repeat split.
Qed.

Lemma date_leb_refl (d : datetime.date) : datetime.date_leb d d = true.
Proof.
  unfold datetime.date_leb.
  rewrite (@py_lt_irrefl _ _ PyOrdLaws_date d : datetime.date_ltb d d = false).
  reflexivity.
Qed.

(** ** C1: the ordering key *)

(** C1.  The ordering key of an Event is the tuple (source.weight, 0 if
    single-day else 1, date, category rank, title), and [<] on Events is the
    lexicographic order of that tuple, each item ascending: a record of a
    source of lower weight is before ([<]) every record of a source of higher
    weight whatever the other fields are, it stands before it in the sorted
    output, and among records equal on the first four items the title
    decides. *)
Theorem order_index_priority (a b : Event) :
  order_index a
  = (weight (source a), (if is_single_day a then 0 else 1), date a,
     value (type a), title a)
  /\ (Event_lt a b = true <->
      weight (source a) < weight (source b)
      \/ (weight (source a) = weight (source b)
          /\ (single_day_rank a < single_day_rank b
              \/ (single_day_rank a = single_day_rank b
                  /\ (datetime.date_ltb (date a) (date b) = true
                      \/ (date a = date b
                          /\ (value (type a) < value (type b)
                              \/ (value (type a) = value (type b)
                                  /\ String.ltb (title a) (title b) = true))))))))
  /\ (weight (source a) < weight (source b) ->
      Event_lt a b = true /\ Event_lt b a = false)
  /\ (weight (source a) < weight (source b) ->
      forall l l1 l2 : list Event,
        sorted Event_lt l = (l1 ++ b :: l2)%list -> ~ In a l2)
  /\ (weight (source a) = weight (source b) ->
      single_day_rank a = single_day_rank b ->
      date a = date b ->
      value (type a) = value (type b) ->
      Event_lt a b = String.ltb (title a) (title b)).
Proof.
  assert (W : weight (source a) < weight (source b) -> Event_lt a b = true).
  { intros H. apply Event_lt_lexicographic. left. exact H. }
  split; [ reflexivity | ].
  split; [ apply Event_lt_lexicographic | ].
  split; [ | split ].
  - intros H. split; [ auto | apply Event_lt_asym; auto ].
  - intros H l l1 l2 E Ha.
    pose proof (sorted_events_after l l1 l2 a b E Ha) as F.
    rewrite (W H) in F. discriminate.
  - intros Ew Es Ed Et.
    destruct (String.ltb (title a) (title b)) eqn:L.
    + apply Event_lt_lexicographic. right. split; [ exact Ew | ].
      right. split; [ exact Es | ]. right. split; [ exact Ed | ].
      right. split; [ exact Et | exact L ].
    + destruct (Event_lt a b) eqn:F; [ | reflexivity ].
      apply Event_lt_lexicographic in F.
      assert (Il : datetime.date_ltb (date a) (date b) = false)
        by (rewrite Ed; apply (@py_lt_irrefl _ _ PyOrdLaws_date)).
      intuition (try lia; try congruence).
Qed.

(** The record of the lighter source is first, though its date, its category
    and its title are all the later ones and it spans several days. *)
Lemma order_index_priority_witness :
  Event_lt Sample.light_late Sample.heavy_early = true
  /\ Event_lt Sample.heavy_early Sample.light_late = false.
Proof.
  exact (proj1 (proj2 (proj2
           (order_index_priority Sample.light_late Sample.heavy_early)))
           eq_refl).
Defined.

(** ** C2: the comparison is a total preorder *)

(** C2.  For Events a and b exactly one holds of: a < b; b < a; a and b tie
    on every item of the ordering key.  [<] is transitive, and "not after" is
    transitive and total: the comparison is a total preorder, whose ties are
    the records with equal keys. *)
Theorem Event_lt_total_preorder (a b c : Event) :
  ((Event_lt a b = true /\ Event_lt b a = false /\ ~ tie a b)
   \/ (Event_lt a b = false /\ Event_lt b a = true /\ ~ tie a b)
   \/ (Event_lt a b = false /\ Event_lt b a = false /\ tie a b))
  /\ (Event_lt a b = true -> Event_lt b c = true -> Event_lt a c = true)
  /\ (not_after Event_lt a b -> not_after Event_lt b c -> not_after Event_lt a c)
  /\ (not_after Event_lt a b \/ not_after Event_lt b a).
Proof.
  split; [ | split; [ | split ] ].
  - destruct (Event_lt_total a b) as [L | [E | L]].
    + left. split; [ exact L | ]. split; [ apply Event_lt_asym; exact L | ].
      intros T. apply tie_order_index in T. apply Event_lt_key in T. congruence.
    + right. right. split; [ apply Event_lt_key; exact E | ].
      split; [ apply Event_lt_key; symmetry; exact E | ].
      apply tie_order_index. exact E.
    + right. left. split; [ apply Event_lt_asym; exact L | ].
      split; [ exact L | ].
      intros T. apply tie_order_index in T. symmetry in T.
      apply Event_lt_key in T. congruence.
  - apply Event_lt_trans.
  - apply not_after_trans. apply Event_lt_negtrans.
  - unfold not_after. destruct (Event_lt a b) eqn:L.
    + left. apply Event_lt_asym in L. exact L.
    + right. reflexivity.
Qed.

Lemma Event_lt_total_preorder_witness :
  Event_lt Sample.light_late Sample.fact_shifted = true.
Proof.
  exact (proj1 (proj2
           (Event_lt_total_preorder Sample.light_late Sample.fact Sample.fact_shifted))
           eq_refl eq_refl).
Defined.

(** ** C8: equality *)

(** C8.  Two Events are [==] exactly when their titles are equal and their
    links are equal, whatever their dates, categories, sources and keys; and
    there are two records with one title and one link and two dates which are
    [==], of which one is [<] the other, so that [sorted] orders them. *)
Theorem Event_eq_title_link :
  (forall a b : Event,
      Event_eq a b = true <-> title a = title b /\ link a = link b)
  /\ (exists a b : Event,
        Event_eq a b = true /\ date a <> date b
        /\ Event_lt a b = true /\ Event_lt b a = false
        /\ sorted Event_lt [b; a] = [a; b]).
Proof.
  split.
  - intros a b. unfold Event_eq.
    rewrite andb_true_iff, !String.eqb_eq. reflexivity.
  - exists Sample.fact, Sample.fact_shifted.
    repeat split; try reflexivity. discriminate.
Qed.

(** ** C9: the constructor *)

(** C9, as the code has it.  [Event(...)] stores the [end_date] it is given,
    unchecked, and [date] when none is given; [is_single_day] is true exactly
    when [date == end_date]; and [end_date >= date] holds when no [end_date]
    is given or the one given is itself not before [date]. *)
Theorem Event_init_end_date (src : Source) (d : datetime.date) (t l : string)
    (ty : EventType) (e : option datetime.date) :
  let ev := Event_init src d t l ty e in
  date ev = d
  /\ (e = None -> end_date ev = d)
  /\ (forall e' : datetime.date, e = Some e' -> end_date ev = e')
  /\ (is_single_day ev = true <-> date ev = end_date ev)
  /\ ((e = None \/ exists e', e = Some e' /\ datetime.date_leb d e' = true) ->
      datetime.date_leb (date ev) (end_date ev) = true).
Proof.
  simpl. split; [ reflexivity | ].
  split; [ intros ->; reflexivity | ].
  split; [ intros e' ->; reflexivity | ].
  split; [ apply date_eqb_eq | ].
  intros [-> | (e' & -> & H)]; simpl; [ apply date_leb_refl | exact H ].
Qed.

Lemma Event_init_end_date_witness :
  datetime.date_leb (date Sample.light_late) (end_date Sample.light_late) = true.
Proof.
  exact (proj2 (proj2 (proj2 (proj2
           (Event_init_end_date Sample.light Sample.sep_15 "Z" "http://z" DEATH
              (Some Sample.oct_15)))))
           (or_intror (ex_intro _ Sample.oct_15 (conj eq_refl eq_refl)))).
Defined.

(** C9 as stated fails: an Event whose [end_date] is before its [date]. *)
Lemma Event_init_end_before_date :
  datetime.date_leb
    (date (Event_init DaysOfTheYearSource_self Sample.oct_15 "T" "http://t"
             NATIONAL_DAY (Some Sample.sep_15)))
    (end_date (Event_init DaysOfTheYearSource_self Sample.oct_15 "T" "http://t"
                 NATIONAL_DAY (Some Sample.sep_15)))
  = false.
Proof. reflexivity. Qed.

(** ** C7: an adapter that raises *)

Lemma collect_returns (w : World) (day month : Z) (srcs : list Adapter) :
  forall (ls : list (list Event)) (acc : list Event),
    Forall2 (fun s evs => fetch_events s w day month None = Ok evs) srcs ls ->
    collect w day month srcs acc = Ok (acc ++ List.concat ls)%list.
Proof.
  induction srcs as [ | s srcs IH]; intros ls acc F; inversion F; subst; simpl.
  - rewrite app_nil_r. reflexivity.
  - match goal with H : fetch_events s _ _ _ _ = Ok _ |- _ => rewrite H end.
    simpl. rewrite IH with (ls := l') by assumption.
    rewrite app_assoc. reflexivity.
Qed.

Lemma collect_raises (w : World) (day month : Z) (pre : list Adapter) :
  forall (ls : list (list Event)) (s : Adapter) (post : list Adapter) (e : exn)
         (acc : list Event),
    Forall2 (fun s evs => fetch_events s w day month None = Ok evs) pre ls ->
    fetch_events s w day month None = Raise e ->
    collect w day month (pre ++ s :: post) acc = Raise e.
Proof.
  induction pre as [ | p pre IH]; intros ls s post e acc F R; inversion F; subst; simpl.
  - rewrite R. reflexivity.
  - match goal with H : fetch_events p _ _ _ _ = Ok _ |- _ => rewrite H end.
    simpl. eapply IH; eassumption.
Qed.

Lemma collect_inv (w : World) (day month : Z) (srcs : list Adapter) :
  forall (acc r : list Event),
    collect w day month srcs acc = Ok r ->
    exists ls : list (list Event),
      Forall2 (fun s evs => fetch_events s w day month None = Ok evs) srcs ls
      /\ r = (acc ++ List.concat ls)%list.
Proof.
  induction srcs as [ | s srcs IH]; intros acc r E; simpl in E.
  - injection E as <-. exists []. split; [ constructor | ].
    simpl. rewrite app_nil_r. reflexivity.
  - destruct (fetch_events s w day month None) as [evs | ] eqn:F; simpl in E;
      [ | discriminate ].
    destruct (IH _ _ E) as (ls & Fs & ->).
    exists (evs :: ls). split; [ constructor; assumption | ].
    simpl. rewrite app_assoc. reflexivity.
Qed.

(** C7, as the code has it.  [events_today] has no handler: when an adapter
    raises, after the adapters before it have returned, that exception ends
    [events_today] and no list is returned.  When every registered adapter
    returns, [events_today] returns the records of all of them, in registry
    order, sorted by the ordering key: a rearrangement of those records in
    which no record is [<] one that stands before it. *)
Theorem events_today_propagates (w : World) (c : EventCollector) :
  (forall (pre : list Adapter) (s : Adapter) (post : list Adapter)
          (ls : list (list Event)) (e : exn),
      sources c = (pre ++ s :: post)%list ->
      Forall2 (fetched w) pre ls ->
      fetch_events s w (datetime.day (date_today w))
        (datetime.month (date_today w)) None = Raise e ->
      events_today w c = Raise e)
  /\ (forall ls : list (list Event),
        Forall2 (fetched w) (sources c) ls ->
        events_today w c = Ok (sorted Event_lt (List.concat ls))
        /\ Permutation (sorted Event_lt (List.concat ls)) (List.concat ls)
        /\ StronglySorted (not_after Event_lt) (sorted Event_lt (List.concat ls))).
Proof.
  split.
  - intros pre s post ls e E F R. unfold events_today. rewrite E.
    rewrite (collect_raises w _ _ pre ls s post e [] F R). reflexivity.
  - intros ls F. split; [ | split ].
    + unfold events_today.
      rewrite (collect_returns w _ _ (sources c) ls [] F). reflexivity.
    + apply sorted_perm.
    + apply sorted_events_sorted.
Qed.

Lemma events_today_propagates_witness :
  events_today Sample.world
    (mkEventCollector
       [Sample.returning [Sample.fact_shifted; Sample.fact];
        Sample.returning [Sample.light_late]])
  = Ok [Sample.light_late; Sample.fact; Sample.fact_shifted]
  /\ events_today Sample.world
       (mkEventCollector
          [Sample.returning [Sample.fact]; Sample.raising (Raised "FetchError");
           Sample.returning [Sample.light_late]])
     = Raise (Raised "FetchError").
Proof.
  split.
  - refine (proj1 (proj2 (events_today_propagates Sample.world
              (mkEventCollector
                 [Sample.returning [Sample.fact_shifted; Sample.fact];
                  Sample.returning [Sample.light_late]]))
              [[Sample.fact_shifted; Sample.fact]; [Sample.light_late]] _)).
    repeat constructor.
  - refine (proj1 (events_today_propagates Sample.world
              (mkEventCollector
                 [Sample.returning [Sample.fact];
                  Sample.raising (Raised "FetchError");
                  Sample.returning [Sample.light_late]]))
              [Sample.returning [Sample.fact]]
              (Sample.raising (Raised "FetchError"))
              [Sample.returning [Sample.light_late]]
              [[Sample.fact]] (Raised "FetchError") eq_refl _ eq_refl).
    repeat constructor.
Defined.

(** C7 as stated fails: one of three adapters raises FetchError, and
    [events_today] ends with that exception instead of returning the sorted
    records of the other two. *)
Lemma events_today_FetchError :
  events_today Sample.world
    (mkEventCollector
       [Sample.returning [Sample.fact]; Sample.raising (Raised "FetchError");
        Sample.returning [Sample.light_late]])
  = Raise (Raised "FetchError")
  /\ events_today Sample.world
       (mkEventCollector
          [Sample.returning [Sample.fact]; Sample.raising (Raised "FetchError");
           Sample.returning [Sample.light_late]])
     <> Ok (sorted Event_lt [Sample.fact; Sample.light_late]).
Proof. split; [ reflexivity | discriminate ]. Qed.

(** ** C3: the year, when it is omitted *)

(** Line 56: [years] is not a keyword of [timedelta]. *)
Lemma timedelta_years (n : Z) : datetime.timedelta_new "years" n = Raise TypeError.
Proof. reflexivity. Qed.

(** With [year] omitted, the three lines never produce a date: [today] on
    line 55 (and 92) is a name that neither [fetch_events] nor the module
    binds. *)
Lemma fetch_date_year_omitted (w : World) (day month : Z) (d : datetime.date) :
  fetch_date w day month None <> Ok d.
Proof.
  unfold fetch_date.
  destruct (datetime.date_new _ month day); simpl; discriminate.
Qed.

(** With [year] given, the date is the one asked for. *)
Lemma fetch_date_year_given (w : World) (day month y : Z) :
  y <> 0 -> fetch_date w day month (Some y) = datetime.date_new y month day.
Proof.
  intros N. unfold fetch_date, year_or.
  destruct (Z.eqb_spec y 0); [ contradiction | ].
  destruct (datetime.date_new y month day); reflexivity.
Qed.

(** C3.  On 2024-08-10, asked for day 2 of month 8 with the year omitted,
    the date resolution of [fetch_events] ends with NameError at
    [date < today], in both adapters, whatever the sites and the parser
    return: no year is resolved, where the specification resolves 2025.  On no day and for
    no day and month does it resolve a date when the year is omitted. *)
Theorem fetch_events_year_omitted
    (cards : Z -> Z -> Z -> result (list Card)) (feed : Z -> Z -> result ApiData)
    (parse : parse_arg -> result datetime.datetime) :
  let w := mkWorld (datetime.mkdate 2024 8 10) cards feed parse in
  fetch_date w 2 8 None = Raise (NameError "today")
  /\ DaysOfTheYearSource_fetch_events w DaysOfTheYearSource_self 2 8 None
     = Raise (NameError "today")
  /\ WikipediaSource_fetch_events w WikipediaSource_self 2 8 None
     = Raise (NameError "today")
  /\ (forall (w' : World) (day month : Z) (d : datetime.date),
        fetch_date w' day month None <> Ok d).
Proof.
  split; [ reflexivity | ]. split; [ reflexivity | ]. split; [ reflexivity | ].
  intros w' day month d. apply fetch_date_year_omitted.
Qed.

(** ** C4 and C5: the date of a card *)

(** No card becomes an Event: whatever the card holds, the loop body ends
    with an exception. *)
Lemma card_event_raises (w : World) (self : Source) (day_card : Card) (e : Event) :
  card_event w self day_card <> Ok e.
Proof.
  unfold card_event.
  destruct (card_dates w _) as [[d1 d2] | ]; simpl; [ | discriminate ].
  destruct (bs4.getitem _ _) as [href | ]; simpl; discriminate.
Qed.

(** A date block with no tag named [content] inside, as a block that holds
    only its text: [card_date.content] is None, and line 65 ends the loop
    body with TypeError, whatever the text is. *)
Lemma card_event_no_content (w : World) (self : Source) (day_card : Card) :
  bs4.getattr (card_date day_card) "content" = None ->
  card_event w self day_card = Raise TypeError.
Proof. intros H. unfold card_event. rewrite H. reflexivity. Qed.

Lemma for_each_Forall2 {A B : Type} (f : A -> result B) (xs : list A) :
  forall ys, for_each f xs = Ok ys <-> Forall2 (fun x y => f x = Ok y) xs ys.
Proof.
  induction xs as [ | x xs IH]; intros ys; simpl.
  - split.
    + intros E. injection E as <-. constructor.
    + intros F. inversion F. reflexivity.
  - destruct (f x) as [y | e] eqn:Ef; simpl.
    + destruct (for_each f xs) as [ys' | e] eqn:Er; simpl.
      * split.
        -- intros E. injection E as <-. constructor; [ exact Ef | ].
           apply IH. reflexivity.
        -- intros F. inversion F as [ | ? y0 ? l' Hy Hl]; subst.
           apply IH in Hl. congruence.
      * split; [ discriminate | ].
        intros F. inversion F as [ | ? y0 ? l' Hy Hl]; subst.
        apply IH in Hl. discriminate.
    + split; [ discriminate | ].
      intros F. inversion F; subst. congruence.
Qed.

(** [DaysOfTheYearSource.fetch_events] returns only when the page has no
    card, and then the empty list. *)
Lemma DaysOfTheYearSource_fetch_events_returns (w : World) (self : Source)
    (day month : Z) (year : option Z) (l : list Event) :
  DaysOfTheYearSource_fetch_events w self day month year = Ok l -> l = [].
Proof.
  unfold DaysOfTheYearSource_fetch_events.
  destruct (fetch_date w day month year) as [d | ]; simpl; [ | discriminate ].
  destruct (get_day_cards w _ _ _) as [cards | ]; simpl; [ | discriminate ].
  intros E. apply for_each_Forall2 in E.
  destruct E as [ | c ev cs evs Hc _]; [ reflexivity | ].
  exfalso. exact (card_event_raises _ _ _ _ Hc).
Qed.

(** C4.  The card dated "September, 2022" is not read as a month.  Its
    date block holds the text and no tag named [content], so
    [card_date.content] is None; the loop body ends with TypeError at line
    65, in every world, and so does [fetch_events] on a page that holds the
    card: no Event is produced, with no date and no end date. *)
Theorem card_dates_month_year (w : World) (self : Source) :
  bs4.getattr (card_date Sample.month_card) "content" = None
  /\ card_dates w (bs4.getattr (card_date Sample.month_card) "content")
     = Raise TypeError
  /\ card_event w self Sample.month_card = Raise TypeError
  /\ DaysOfTheYearSource_fetch_events
       (mkWorld (date_today w) (fun _ _ _ => Ok [Sample.month_card])
                (get_feed w) (dateutil_parse w))
       self 20 9 (Some 2022)
     = Raise TypeError.
Proof. repeat split. Qed.

(** C5.  The card dated "Thu Sep 15th, 2022 - Sat Oct 15th, 2022" is not
    read as a range.  Its date block holds the text and no tag named
    [content], so [card_date.content] is None; the loop body ends with
    TypeError at line 65, in every world, before the text is split or
    parsed, and so does [fetch_events] on a page that holds the card: no
    Event is produced. *)
Theorem card_dates_range (w : World) (self : Source) :
  bs4.getattr (card_date Sample.range_card) "content" = None
  /\ card_dates w (bs4.getattr (card_date Sample.range_card) "content")
     = Raise TypeError
  /\ card_event w self Sample.range_card = Raise TypeError
  /\ DaysOfTheYearSource_fetch_events
       (mkWorld (date_today w) (fun _ _ _ => Ok [Sample.range_card])
                (get_feed w) (dateutil_parse w))
       self 15 9 (Some 2022)
     = Raise TypeError.
Proof. repeat split. Qed.

(** ** C6: the records of the feed *)

(** What a successful [WikipediaSource.fetch_events] returns: one record for
    each entry, births first, then deaths, events and holidays, each of its
    category, single-day, with the text of its entry as title.  The link of a
    birth, an event or a holiday is the first page of its own entry; the link
    of every death is the first page of the last birth. *)
Lemma WikipediaSource_fetch_events_returns (w : World) (self : Source)
    (day month : Z) (year : option Z) (l : list Event) :
  WikipediaSource_fetch_events w self day month year = Ok l ->
  exists (api_data : ApiData) (born died happened observed : list Event),
    get_feed w month day = Ok api_data
    /\ l = (born ++ died ++ happened ++ observed)%list
    /\ Forall2 (fun entry e =>
                  type e = BIRTH /\ is_single_day e = true /\ source e = self
                  /\ title e = entry_text entry
                  /\ first_page entry = Ok (link e))
               (births api_data) born
    /\ Forall2 (fun entry e =>
                  type e = DEATH /\ is_single_day e = true /\ source e = self
                  /\ title e = entry_text entry
                  /\ exists birth_data,
                       load_loop_variable "birth_data" (births api_data) = Ok birth_data
                       /\ first_page birth_data = Ok (link e))
               (deaths api_data) died
    /\ Forall2 (fun entry e =>
                  type e = ON_THIS_DAY /\ is_single_day e = true /\ source e = self
                  /\ title e = entry_text entry
                  /\ first_page entry = Ok (link e))
               (events api_data) happened
    /\ Forall2 (fun entry e =>
                  type e = HOLIDAY /\ is_single_day e = true /\ source e = self
                  /\ title e = entry_text entry
                  /\ first_page entry = Ok (link e))
               (holidays api_data) observed.
Proof.
  unfold WikipediaSource_fetch_events.
  destruct (fetch_date w day month year) as [d0 | ]; simpl; [ | discriminate ].
  destruct (get_feed w month day) as [api | ]; simpl; [ | discriminate ].
  destruct (for_each _ (births api)) as [born | ] eqn:Eb; simpl; [ | discriminate ].
  destruct (for_each _ (deaths api)) as [died | ] eqn:Ed; simpl; [ | discriminate ].
  destruct (for_each _ (events api)) as [happened | ] eqn:Ee; simpl; [ | discriminate ].
  destruct (for_each _ (holidays api)) as [observed | ] eqn:Eh; simpl; [ | discriminate ].
  intros E. injection E as <-.
  exists api, born, died, happened, observed.
  split; [ reflexivity | ]. split; [ reflexivity | ].
  apply for_each_Forall2 in Eb, Ed, Ee, Eh.
  repeat split.
  - eapply Forall2_impl; [ | exact Eb ]. cbv beta. intros entry e H.
    destruct (getitem_year entry) as [y | ]; simpl in H; [ | discriminate ].
    destruct (datetime.date_new y month day) as [d | ]; simpl in H; [ | discriminate ].
    destruct (first_page entry) as [p | ]; simpl in H; [ | discriminate ].
    injection H as <-. simpl. unfold is_single_day. simpl.
    repeat split. apply date_eqb_eq. reflexivity.
  - eapply Forall2_impl; [ | exact Ed ]. cbv beta. intros entry e H.
    destruct (getitem_year entry) as [y | ]; simpl in H; [ | discriminate ].
    destruct (datetime.date_new y month day) as [d | ]; simpl in H; [ | discriminate ].
    destruct (load_loop_variable "birth_data" (births api)) as [b | ]; simpl in H;
      [ | discriminate ].
    destruct (first_page b) as [p | ] eqn:Ep; simpl in H; [ | discriminate ].
    injection H as <-. simpl. unfold is_single_day. simpl.
    repeat split; [ apply date_eqb_eq; reflexivity | ].
    exists b. split; [ reflexivity | exact Ep ].
  - eapply Forall2_impl; [ | exact Ee ]. cbv beta. intros entry e H.
    destruct (getitem_year entry) as [y | ]; simpl in H; [ | discriminate ].
    destruct (datetime.date_new y month day) as [d | ]; simpl in H; [ | discriminate ].
    destruct (first_page entry) as [p | ]; simpl in H; [ | discriminate ].
    injection H as <-. simpl. unfold is_single_day. simpl.
    repeat split. apply date_eqb_eq. reflexivity.
  - eapply Forall2_impl; [ | exact Eh ]. cbv beta. intros entry e H.
    destruct (datetime.date_new (datetime.year d0) month day) as [d | ]; simpl in H;
      [ | discriminate ].
    destruct (first_page entry) as [p | ]; simpl in H; [ | discriminate ].
    injection H as <-. simpl. unfold is_single_day. simpl.
    repeat split. apply date_eqb_eq. reflexivity.
Qed.

(** C6.  Asked for 2 August 2024, with one birth (page http://b) and one
    death (page http://d) in the feed, [WikipediaSource.fetch_events] returns
    a BIRTH record and a DEATH record, and the link of the DEATH record is
    the page of the birth, not that of its own entry. *)
Theorem WikipediaSource_death_link :
  WikipediaSource_fetch_events Sample.world WikipediaSource_self 2 8 (Some 2024)
  = Ok [Event_init WikipediaSource_self (datetime.mkdate 1990 8 2) "B" "http://b"
          BIRTH None;
        Event_init WikipediaSource_self (datetime.mkdate 2000 8 2) "D" "http://b"
          DEATH None]
  /\ first_page Sample.death = Ok "http://d".
Proof. split; reflexivity. Qed.

(** With deaths and no birth in the feed, line 111 reads a name that is not
    bound yet. *)
Lemma WikipediaSource_death_without_birth :
  WikipediaSource_fetch_events
    (mkWorld Sample.sep_20 (fun _ _ _ => Ok [])
             (fun _ _ => Ok (mkApiData [] [Sample.death] [] [])) Sample.parse)
    WikipediaSource_self 2 8 (Some 2024)
  = Raise (UnboundLocalError "birth_data").
Proof. reflexivity. Qed.

(** ** C10: what [events_today] returns *)





(** ** The model on the cards quoted in the source *)

Example text_block_has_no_content :
  bs4.getattr (Sample.date_block "date_day" "Tue Sep 20th, 2022") "content" = None.
Proof. reflexivity. Qed.

Example content_is_the_first_tag_of_that_name :
  bs4.getattr
    (bs4.mkTag "div" []
       [bs4.NavigableString "a";
        bs4.Element (bs4.mkTag "p" []
          [bs4.Element (bs4.mkTag "content" [("n", "1")] [])]);
        bs4.Element (bs4.mkTag "content" [("n", "2")] [])])
    "content"
  = Some (bs4.mkTag "content" [("n", "1")] []).
Proof. reflexivity. Qed.

(** * Further properties of the code *)

(** ** [sorted]: ties keep their order, and the keys come out in one order *)

Section SortedMore.

Variable A : Type.
Variable lt : A -> A -> bool.

(** [insert] passes only items that are [<] the new one: a class of items
    that holds no two items of which one is [<] the other keeps its order. *)
Lemma insert_filter (p : A -> bool) (x : A) (l : list A) :
  (forall y, lt y x = true -> p x = true -> p y = false) ->
  filter p (insert lt x l) = filter p (x :: l).
Proof.
  intros P. induction l as [ | y l IH]; [ reflexivity | ].
  cbn [insert]. destruct (lt y x) eqn:L; [ | reflexivity ].
  cbn [filter] in *. rewrite IH.
  destruct (p x) eqn:Px; [ | reflexivity ].
  rewrite (P y L eq_refl). reflexivity.
Qed.

Lemma sorted_filter (p : A -> bool) (l : list A) :
  (forall x y, lt y x = true -> p x = true -> p y = false) ->
  filter p (sorted lt l) = filter p l.
Proof.
  intros P. induction l as [ | x l IH]; [ reflexivity | ].
  cbn [sorted]. rewrite insert_filter by (apply P).
  cbn [filter]. rewrite IH. reflexivity.
Qed.

(** Two sorted lists with the same items are one list, when no two
    different items are each not after the other. *)
Lemma sorted_unique (l1 : list A) :
  (forall x y, not_after lt x y -> not_after lt y x -> x = y) ->
  forall l2,
    StronglySorted (not_after lt) l1 -> StronglySorted (not_after lt) l2 ->
    Permutation l1 l2 -> l1 = l2.
Proof.
  intros Anti. induction l1 as [ | a t1 IH]; intros l2 S1 S2 P.
  - apply Permutation_nil in P. symmetry. exact P.
  - destruct l2 as [ | b t2].
    + apply Permutation_sym, Permutation_nil in P. discriminate.
    + apply StronglySorted_inv in S1. destruct S1 as [S1 F1].
      apply StronglySorted_inv in S2. destruct S2 as [S2 F2].
      rewrite Forall_forall in F1, F2.
      assert (E : a = b).
      { assert (Ia : In a (b :: t2))
          by (eapply Permutation_in; [ exact P | left; reflexivity ]).
        assert (Ib : In b (a :: t1))
          by (eapply Permutation_in;
              [ apply Permutation_sym; exact P | left; reflexivity ]).
        destruct Ia as [Ia | Ia]; [ symmetry; exact Ia | ].
        destruct Ib as [Ib | Ib]; [ exact Ib | ].
        apply Anti; auto. }
      subst b. f_equal. apply IH; try assumption.
      eapply Permutation_cons_inv. exact P.
Qed.

End SortedMore.

Lemma map_insert {A B : Type} (f : A -> B) (lt : B -> B -> bool) (x : A)
    (l : list A) :
  map f (insert (fun a b => lt (f a) (f b)) x l) = insert lt (f x) (map f l).
Proof.
  induction l as [ | y l IH]; [ reflexivity | ].
  cbn [insert map]. destruct (lt (f y) (f x)); cbn [map]; [ | reflexivity ].
  rewrite IH. reflexivity.
Qed.

Lemma map_sorted {A B : Type} (f : A -> B) (lt : B -> B -> bool) (l : list A) :
  map f (sorted (fun a b => lt (f a) (f b)) l) = sorted lt (map f l).
Proof.
  induction l as [ | x l IH]; [ reflexivity | ].
  cbn [sorted map]. rewrite map_insert, IH. reflexivity.
Qed.

Section LawsFacts.

Context {A : Type} `{PyOrdLaws A}.

Lemma py_lt_asym (x y : A) : py_lt x y = true -> py_lt y x = false.
Proof.
  intros L. destruct (py_lt y x) eqn:E; [ | reflexivity ].
  pose proof (py_lt_trans _ _ _ L E) as T.
  rewrite py_lt_irrefl in T. discriminate.
Qed.

Lemma py_lt_negtrans (x y z : A) :
  py_lt x z = true -> py_lt x y = true \/ py_lt y z = true.
Proof.
  intros L. destruct (py_lt_total x y) as [Lxy | [-> | Lyx]]; auto.
  right. eapply py_lt_trans; eassumption.
Qed.

Lemma not_after_antisym (x y : A) :
  not_after py_lt x y -> not_after py_lt y x -> x = y.
Proof.
  unfold not_after. intros Hyx Hxy.
  destruct (py_lt_total x y) as [L | [E | L]]; congruence.
Qed.

(** The sorted list of a bag of items does not depend on the order in which
    the bag is given. *)
Lemma sorted_permutation (l l' : list A) :
  Permutation l l' -> sorted py_lt l = sorted py_lt l'.
Proof.
  intros P. apply sorted_unique with (lt := py_lt).
  - apply not_after_antisym.
  - apply sorted_sorted; [ apply py_lt_asym | apply py_lt_negtrans ].
  - apply sorted_sorted; [ apply py_lt_asym | apply py_lt_negtrans ].
  - eapply perm_trans; [ apply sorted_perm | ].
    eapply perm_trans; [ exact P | ].
    apply Permutation_sym, sorted_perm.
Qed.

End LawsFacts.

Lemma sorted_events_keys (l : list Event) :
  map order_index (sorted Event_lt l) = sorted py_lt (map order_index l).
Proof. apply (map_sorted order_index py_lt). Qed.

(** X1.  [sorted] is stable on Events: the records of any one ordering key
    stand in the output in the order in which they stood in the input. *)
Theorem sorted_events_stable (l : list Event) (k : order_key) :
  filter (fun e => py_eq (order_index e) k) (sorted Event_lt l)
  = filter (fun e => py_eq (order_index e) k) l.
Proof.
  apply sorted_filter. intros x y L Px.
  apply (@py_eq_true _ _ order_key_laws) in Px.
  destruct (py_eq (order_index y) k) eqn:Py; [ | reflexivity ].
  apply (@py_eq_true _ _ order_key_laws) in Py.
  assert (E : order_index y = order_index x) by congruence.
  apply Event_lt_key in E. congruence.
Qed.

Lemma sorted_events_arrival_order_keys (l l' : list Event) :
  Permutation l l' ->
  map order_index (sorted Event_lt l) = map order_index (sorted Event_lt l').
Proof.
  intros P. rewrite !sorted_events_keys.
  apply (@sorted_permutation _ _ order_key_laws).
  apply Permutation_map. exact P.
Qed.

Lemma sorted_of_sorted {A : Type} (lt : A -> A -> bool) (l : list A) :
  StronglySorted (not_after lt) l -> sorted lt l = l.
Proof.
  induction 1 as [ | x l S IH F]; [ reflexivity | ].
  cbn [sorted]. rewrite IH. destruct l as [ | y l']; [ reflexivity | ].
  cbn [insert]. inversion F as [ | ? ? N _]; subst.
  unfold not_after in N. rewrite N. reflexivity.
Qed.

(** X2.  The ordering keys of the sorted output do not depend on the order
    of arrival: two lists with the same records, in any two orders, sort to
    the same sequence of keys.  Sorting a sorted list changes nothing. *)
Theorem sorted_events_arrival_order (l l' : list Event) :
  (Permutation l l' ->
   map order_index (sorted Event_lt l) = map order_index (sorted Event_lt l'))
  /\ sorted Event_lt (sorted Event_lt l) = sorted Event_lt l.
Proof.
  split.
  - apply sorted_events_arrival_order_keys.
  - apply sorted_of_sorted. apply sorted_events_sorted.
Qed.

Lemma sorted_events_arrival_order_witness :
  map order_index
    (sorted Event_lt [Sample.fact_shifted; Sample.light_late; Sample.fact])
  = map order_index
      (sorted Event_lt [Sample.fact; Sample.fact_shifted; Sample.light_late]).
Proof.
  apply (proj1 (sorted_events_arrival_order
                  [Sample.fact_shifted; Sample.light_late; Sample.fact]
                  [Sample.fact; Sample.fact_shifted; Sample.light_late])).
  apply Permutation_sym. apply (Permutation_cons_app [_; _] []).
  apply Permutation_refl.
Defined.

(** ** [events_today]: when it returns, and the registry order *)

Lemma Forall2_permutation {A B : Type} (R : A -> list B -> Prop) (l l' : list A) :
  Permutation l l' ->
  forall ls, Forall2 R l ls ->
    exists ls', Forall2 R l' ls' /\ Permutation (List.concat ls) (List.concat ls').
Proof.
  induction 1 as [ | x l l' P IH | x y l | l l' l'' P1 IH1 P2 IH2]; intros ls F.
  - inversion F; subst. exists []. split; [ constructor | apply perm_nil ].
  - inversion F as [ | ? a ? t Ra Ft]; subst.
    destruct (IH t Ft) as (t' & Ft' & Pt).
    exists (a :: t'). split; [ constructor; assumption | ].
    simpl. apply Permutation_app_head. exact Pt.
  - inversion F as [ | ? a ? t Ra Ft]; subst.
    inversion Ft as [ | ? b ? t' Rb Ft']; subst.
    exists (b :: a :: t'). split; [ repeat constructor; assumption | ].
    simpl. apply Permutation_app_swap_app.
  - destruct (IH1 ls F) as (ls' & F' & P').
    destruct (IH2 ls' F') as (ls'' & F'' & P'').
    exists ls''. split; [ exact F'' | ].
    eapply perm_trans; eassumption.
Qed.

(** X3.  [events_today] returns a list exactly when every registered adapter
    returns one, and the list is then the sorted concatenation of what the
    adapters returned, in registry order. *)
Theorem events_today_returns_iff (w : World) (c : EventCollector)
    (out : list Event) :
  events_today w c = Ok out <->
  exists ls : list (list Event),
    Forall2 (fetched w) (sources c) ls
    /\ out = sorted Event_lt (List.concat ls).
Proof.
  unfold events_today. split.
  - destruct (collect w _ _ (sources c) []) as [all_events | ] eqn:E; simpl;
      [ | discriminate ].
    intros O. injection O as <-.
    destruct (collect_inv _ _ _ _ _ _ E) as (ls & F & ->).
    exists ls. split; [ exact F | reflexivity ].
  - intros (ls & F & ->).
    rewrite (collect_returns w _ _ (sources c) ls [] F). reflexivity.
Qed.

(** X4.  Registering the same adapters in another order changes neither
    whether [events_today] returns nor the records it returns, and the
    ordering keys come out in the same sequence: only records that tie on
    the whole key can change places. *)
Theorem events_today_registry_order (w : World) (c c' : EventCollector)
    (out : list Event) :
  Permutation (sources c) (sources c') ->
  events_today w c = Ok out ->
  exists out' : list Event,
    events_today w c' = Ok out'
    /\ Permutation out out'
    /\ map order_index out = map order_index out'.
Proof.
  intros P E. unfold events_today in *.
  destruct (collect w _ _ (sources c) []) as [all_events | ] eqn:Ec; simpl in E;
    [ | discriminate E ].
  injection E as <-.
  destruct (collect_inv _ _ _ _ _ _ Ec) as (ls & F & ->).
  destruct (Forall2_permutation _ _ _ P ls F) as (ls' & F' & Pc).
  rewrite (collect_returns w _ _ (sources c') ls' [] F'). simpl.
  exists (sorted Event_lt (List.concat ls')).
  split; [ reflexivity | ].
  split; [ | apply sorted_events_arrival_order_keys; exact Pc ].
  eapply perm_trans; [ apply sorted_perm | ].
  eapply perm_trans; [ exact Pc | ].
  apply Permutation_sym, sorted_perm.
Qed.

Lemma events_today_registry_order_witness :
  exists out' : list Event,
    events_today Sample.world
      (mkEventCollector
         [Sample.returning [Sample.light_late];
          Sample.returning [Sample.fact_shifted; Sample.fact]])
    = Ok out'
    /\ Permutation [Sample.light_late; Sample.fact; Sample.fact_shifted] out'
    /\ map order_index [Sample.light_late; Sample.fact; Sample.fact_shifted]
       = map order_index out'.
Proof.
  apply (events_today_registry_order Sample.world
           (mkEventCollector
              [Sample.returning [Sample.fact_shifted; Sample.fact];
               Sample.returning [Sample.light_late]])
           (mkEventCollector
              [Sample.returning [Sample.light_late];
               Sample.returning [Sample.fact_shifted; Sample.fact]])).
  - apply perm_swap.
  - reflexivity.
Defined.

(** ** The comparisons of Event together *)

Lemma Event_eq_sym (a b : Event) : Event_eq a b = Event_eq b a.
Proof.
  unfold Event_eq.
  rewrite (String.eqb_sym (title a)), (String.eqb_sym (link a)). reflexivity.
Qed.

Lemma Event_lt_false_tie (a b : Event) :
  Event_lt a b = false -> Event_lt b a = false -> tie a b.
Proof.
  intros Lab Lba. apply tie_order_index.
  destruct (Event_lt_total a b) as [L | [E | L]]; congruence.
Qed.

Lemma tie_Event_eq (a b : Event) :
  tie a b -> (Event_eq a b = false <-> link a <> link b).
Proof.
  intros (_ & _ & _ & _ & T). unfold Event_eq. rewrite T, String.eqb_refl. simpl.
  apply String.eqb_neq.
Qed.

(** X5.  [==] on Events is an equivalence: every record equals itself, the
    order of the two sides does not matter, and records equal to a third are
    equal. *)
Theorem Event_eq_equivalence (a b c : Event) :
  Event_eq a a = true
  /\ Event_eq a b = Event_eq b a
  /\ (Event_eq a b = true -> Event_eq b c = true -> Event_eq a c = true).
Proof.
  split; [ | split ].
  - unfold Event_eq. rewrite !String.eqb_refl. reflexivity.
  - apply Event_eq_sym.
  - unfold Event_eq. rewrite !andb_true_iff, !String.eqb_eq.
    intros [-> ->] [-> ->]. auto.
Qed.

Lemma Event_eq_equivalence_witness :
  Event_eq Sample.fact Sample.fact = true.
Proof.
  exact (proj2 (proj2
           (Event_eq_equivalence Sample.fact Sample.fact_shifted Sample.fact))
           eq_refl eq_refl).
Defined.

(** X6.  The comparisons that [total_ordering] derives do not fit the
    ordering key where [==] and the key disagree.  [a <= b] and [b <= a]
    hold together exactly when [a == b].  For two records that tie on the
    whole key and have different links, and only for those, [a > b] and
    [b > a] both hold and neither [a <= b] nor [b <= a] does.  [>=] alone is
    total. *)
Theorem total_ordering_comparisons (a b : Event) :
  (Event_le a b = true /\ Event_le b a = true <-> Event_eq a b = true)
  /\ (Event_gt a b = true /\ Event_gt b a = true <-> tie a b /\ link a <> link b)
  /\ (Event_le a b = false /\ Event_le b a = false <-> tie a b /\ link a <> link b)
  /\ (Event_ge a b = true \/ Event_ge b a = true).
Proof.
  unfold Event_le, Event_gt, Event_ge, Event_ne.
  split; [ | split; [ | split ] ].
  - rewrite (Event_eq_sym b a). split.
    + intros [H1 H2]. destruct (Event_eq a b); [ reflexivity | ].
      rewrite orb_false_r in H1, H2.
      apply Event_lt_asym in H1. congruence.
    + intros ->. rewrite !orb_true_r. auto.
  - rewrite (Event_eq_sym b a), !andb_true_iff, !negb_true_iff. split.
    + intros [[Lab N] [Lba _]].
      pose proof (Event_lt_false_tie a b Lab Lba) as T.
      split; [ exact T | apply (tie_Event_eq a b T); exact N ].
    + intros [T N]. pose proof T as T'. apply tie_order_index in T'.
      apply (tie_Event_eq a b T) in N.
      repeat split; try exact N;
        apply Event_lt_key; [ exact T' | symmetry; exact T' ].
  - rewrite (Event_eq_sym b a), !orb_false_iff. split.
    + intros [[Lab N] [Lba _]].
      pose proof (Event_lt_false_tie a b Lab Lba) as T.
      split; [ exact T | apply (tie_Event_eq a b T); exact N ].
    + intros [T N]. pose proof T as T'. apply tie_order_index in T'.
      apply (tie_Event_eq a b T) in N.
      repeat split; try exact N;
        apply Event_lt_key; [ exact T' | symmetry; exact T' ].
  - destruct (Event_lt a b) eqn:L; [ right | left; reflexivity ].
    apply Event_lt_asym in L. rewrite L. reflexivity.
Qed.

(** Two records of one key and two links: each is [>] the other. *)
Lemma total_ordering_comparisons_witness :
  Event_gt Cases.mirror_a Cases.mirror_b = true
  /\ Event_gt Cases.mirror_b Cases.mirror_a = true.
Proof.
  apply (proj2 (proj1 (proj2
           (total_ordering_comparisons Cases.mirror_a Cases.mirror_b)))).
  split; [ repeat split | discriminate ].
Defined.

(** ** WikipediaSource: when it returns, and what *)

Lemma for_each_returns {A B : Type} (f : A -> result B) (xs : list A) :
  (exists ys, for_each f xs = Ok ys) <-> Forall (fun x => exists y, f x = Ok y) xs.
Proof.
  induction xs as [ | x xs IH]; simpl.
  - split; [ constructor | exists []; reflexivity ].
  - split.
    + intros (ys & E). destruct (f x) as [y | ] eqn:Ef; simpl in E; [ | discriminate ].
      destruct (for_each f xs) as [ys' | ] eqn:Er; simpl in E; [ | discriminate ].
      constructor; [ exists y; exact Ef | ].
      apply IH. exists ys'. reflexivity.
    + intros F. inversion F as [ | ? ? (y & Ey) Fs]; subst.
      apply IH in Fs. destruct Fs as (ys & Es).
      exists (y :: ys). rewrite Ey, Es. reflexivity.
Qed.

Lemma date_new_Ok (y m d : Z) (dt : datetime.date) :
  datetime.date_new y m d = Ok dt -> dt = datetime.mkdate y m d.
Proof.
  unfold datetime.date_new. destruct (negb _); [ discriminate | ].
  destruct (_ && _); [ | discriminate ].
  intros E. injection E as <-. reflexivity.
Qed.

Lemma date_new_range (y m d : Z) (dt : datetime.date) :
  datetime.date_new y m d = Ok dt ->
  1 <= y <= 9999 /\ 1 <= m <= 12 /\ 1 <= d <= 31.
Proof.
  unfold datetime.date_new, datetime.MINYEAR, datetime.MAXYEAR.
  destruct (negb _); [ discriminate | ].
  destruct (_ && _) eqn:E; [ | discriminate ]. intros _.
  rewrite !andb_true_iff, !Z.leb_le in E.
  assert (datetime.days_in_month y m <= 31).
  { unfold datetime.days_in_month.
    destruct (m =? 2); [ destruct (datetime.is_leap y); lia | ].
    destruct (_ || _); lia. }
  lia.
Qed.

Lemma fits_int_spec (z : Z) :
  datetime.fits_int z = true <-> datetime.INT_MIN <= z <= datetime.INT_MAX.
Proof. unfold datetime.fits_int. rewrite andb_true_iff, !Z.leb_le. reflexivity. Qed.

(** A year outside the calendar, with a month and a day of the calendar:
    ValueError when the year fits a C int, OverflowError when it does not. *)
Lemma date_new_year (y m d : Z) :
  1 <= m <= 12 -> 1 <= d <= 31 -> y < 1 \/ 9999 < y ->
  datetime.date_new y m d
  = if datetime.fits_int y then Raise ValueError else Raise OverflowError.
Proof.
  intros Rm Rd Ry. unfold datetime.date_new.
  assert (Fm : datetime.fits_int m = true)
    by (apply fits_int_spec; unfold datetime.INT_MIN, datetime.INT_MAX; lia).
  assert (Fd : datetime.fits_int d = true)
    by (apply fits_int_spec; unfold datetime.INT_MIN, datetime.INT_MAX; lia).
  rewrite Fm, Fd. destruct (datetime.fits_int y); simpl; [ | reflexivity ].
  unfold datetime.MINYEAR, datetime.MAXYEAR.
  destruct Ry as [Ry | Ry].
  - destruct (Z.leb_spec 1 y) as [L | L]; [ lia | reflexivity ].
  - destruct (Z.leb_spec y 9999) as [L | L]; [ lia | ].
    rewrite andb_false_r. reflexivity.
Qed.

(** The date that [fetch_events] resolves falls on the day and month asked
    for, and is a date the calendar has. *)
Lemma fetch_date_Ok (w : World) (day month : Z) (year : option Z)
    (d0 : datetime.date) :
  fetch_date w day month year = Ok d0 ->
  datetime.month d0 = month /\ datetime.day d0 = day
  /\ datetime.date_new (datetime.year d0) month day = Ok d0.
Proof.
  destruct year as [y | ]; [ | intros E; exfalso; exact (fetch_date_year_omitted _ _ _ _ E) ].
  unfold fetch_date.
  destruct (datetime.date_new _ month day) as [d | ] eqn:E; simpl; [ | discriminate ].
  intros O. injection O as <-.
  pose proof (date_new_Ok _ _ _ _ E) as ->. simpl.
  repeat split. exact E.
Qed.

Lemma load_loop_variable_Ok {A : Type} (name : string) (xs : list A) :
  (exists x, load_loop_variable name xs = Ok x) <-> xs <> [].
Proof.
  unfold load_loop_variable. split.
  - intros (x & E) ->. discriminate.
  - intros N. destruct (rev xs) as [ | x r] eqn:R.
    + exfalso. apply N. rewrite <- (rev_involutive xs), R. reflexivity.
    + exists x. reflexivity.
Qed.

Lemma load_loop_variable_In {A : Type} (name : string) (xs : list A) (x : A) :
  load_loop_variable name xs = Ok x -> In x xs.
Proof.
  unfold load_loop_variable. destruct (rev xs) as [ | y r] eqn:R; [ discriminate | ].
  intros E. injection E as <-. apply in_rev. rewrite R. left. reflexivity.
Qed.

Lemma first_page_Ok (entry : Entry) :
  (exists p, first_page entry = Ok p) <-> paged entry.
Proof.
  unfold first_page, paged. destruct (entry_pages entry) as [ | p ps].
  - split; [ intros (p & E); discriminate | intros N; contradiction ].
  - split; [ discriminate | exists p; reflexivity ].
Qed.

(** X7.  [WikipediaSource.fetch_events] returns a list exactly when: the date
    resolves; the feed is read; every birth, death and event has a [year]
    with which the day asked for is a date of the calendar (a year from 1 to
    9999); every birth, event and holiday has a first page; and there is a
    birth if there is a death. *)
Theorem WikipediaSource_fetch_events_returns_iff (w : World) (self : Source)
    (day month : Z) (year : option Z) :
  (exists l, WikipediaSource_fetch_events w self day month year = Ok l) <->
  exists (d0 : datetime.date) (api_data : ApiData),
    fetch_date w day month year = Ok d0
    /\ get_feed w month day = Ok api_data
    /\ Forall (dated month day) (births api_data)
    /\ Forall paged (births api_data)
    /\ Forall (dated month day) (deaths api_data)
    /\ (deaths api_data = [] \/ births api_data <> [])
    /\ Forall (dated month day) (events api_data)
    /\ Forall paged (events api_data)
    /\ Forall paged (holidays api_data).
Proof.
  unfold WikipediaSource_fetch_events. split.
  - intros (l & E).
    destruct (fetch_date w day month year) as [d0 | ] eqn:Ed; simpl in E;
      [ | discriminate ].
    destruct (get_feed w month day) as [api | ]; simpl in E; [ | discriminate ].
    destruct (for_each _ (births api)) as [born | ] eqn:Eb; simpl in E;
      [ | discriminate ].
    destruct (for_each _ (deaths api)) as [died | ] eqn:Edd; simpl in E;
      [ | discriminate ].
    destruct (for_each _ (events api)) as [happened | ] eqn:Ee; simpl in E;
      [ | discriminate ].
    destruct (for_each _ (holidays api)) as [observed | ] eqn:Eh; simpl in E;
      [ | discriminate ].
    assert (Fb := proj1 (for_each_returns _ _) (ex_intro _ born Eb)).
    assert (Fd := proj1 (for_each_returns _ _) (ex_intro _ died Edd)).
    assert (Fe := proj1 (for_each_returns _ _) (ex_intro _ happened Ee)).
    assert (Fh := proj1 (for_each_returns _ _) (ex_intro _ observed Eh)).
    clear Eb Edd Ee Eh E.
    exists d0, api. split; [ reflexivity | ]. split; [ reflexivity | ].
    assert (Dated : forall (entry : Entry) (k : Z -> datetime.date -> result Event),
      (exists e, (y <- getitem_year entry ;;
                  d <- datetime.date_new y month day ;; k y d) = Ok e) ->
      dated month day entry).
    { intros entry k (e & H). unfold getitem_year in H.
      destruct (entry_year entry) as [y | ] eqn:Ey; simpl in H; [ | discriminate H ].
      destruct (datetime.date_new y month day) as [d | ] eqn:Dn; simpl in H;
        [ | discriminate H ].
      exists y, d. auto. }
    repeat split.
    + eapply Forall_impl; [ | exact Fb ]. cbv beta. intros entry H.
      eapply Dated. exact H.
    + eapply Forall_impl; [ | exact Fb ]. cbv beta. intros entry (e & H). cbv beta in H.
      apply first_page_Ok.
      destruct (getitem_year entry) as [y | ]; simpl in H; [ | discriminate H ].
      destruct (datetime.date_new y month day); simpl in H; [ | discriminate H ].
      destruct (first_page entry) as [p | ]; [ exists p; reflexivity | discriminate H ].
    + eapply Forall_impl; [ | exact Fd ]. cbv beta. intros entry H.
      eapply Dated. exact H.
    + destruct (deaths api) as [ | dd rest]; [ left; reflexivity | right ].
      inversion Fd as [ | ? ? (e & H) _]; subst. cbv beta in H.
      destruct (getitem_year dd) as [y | ]; simpl in H; [ | discriminate H ].
      destruct (datetime.date_new y month day); simpl in H; [ | discriminate H ].
      apply (load_loop_variable_Ok "birth_data").
      destruct (load_loop_variable "birth_data" (births api)) as [b | ];
        [ exists b; reflexivity | discriminate H ].
    + eapply Forall_impl; [ | exact Fe ]. cbv beta. intros entry H.
      eapply Dated. exact H.
    + eapply Forall_impl; [ | exact Fe ]. cbv beta. intros entry (e & H). cbv beta in H.
      apply first_page_Ok.
      destruct (getitem_year entry) as [y | ]; simpl in H; [ | discriminate H ].
      destruct (datetime.date_new y month day); simpl in H; [ | discriminate H ].
      destruct (first_page entry) as [p | ]; [ exists p; reflexivity | discriminate H ].
    + eapply Forall_impl; [ | exact Fh ]. cbv beta. intros entry (e & H). cbv beta in H.
      apply first_page_Ok.
      destruct (datetime.date_new (datetime.year d0) month day); simpl in H;
        [ | discriminate H ].
      destruct (first_page entry) as [p | ]; [ exists p; reflexivity | discriminate H ].
  - intros (d0 & api & Ed & Ef & Db & Pb & Dd & Nb & De & Pe & Ph).
    rewrite Ed, Ef. simpl.
    assert (Built : forall (entry : Entry) (ty : EventType),
      dated month day entry -> paged entry ->
      exists e, (y <- getitem_year entry ;;
                 d <- datetime.date_new y month day ;;
                 l <- first_page entry ;;
                 Ok (Event_init self d (entry_text entry) l ty None)) = Ok e).
    { intros entry ty (y & d & Ey & Dn) P. apply first_page_Ok in P.
      destruct P as (p & Ep). unfold getitem_year. rewrite Ey. simpl.
      rewrite Dn. simpl. rewrite Ep. simpl. eexists. reflexivity. }
    match goal with |- context [for_each ?f (births api)] =>
      destruct (proj2 (for_each_returns f (births api))) as (born & ->) end.
    { rewrite Forall_forall in *. intros entry I. apply Built; auto. }
    simpl.
    match goal with |- context [for_each ?f (deaths api)] =>
      destruct (proj2 (for_each_returns f (deaths api))) as (died & ->) end.
    { rewrite Forall_forall in *. intros entry I.
      destruct (Dd entry I) as (y & d & Ey & Dn).
      unfold getitem_year. rewrite Ey. simpl. rewrite Dn. simpl.
      destruct Nb as [Nb | Nb]; [ rewrite Nb in I; contradiction | ].
      apply (load_loop_variable_Ok "birth_data") in Nb. destruct Nb as (b & Eb).
      rewrite Eb. simpl.
      pose proof (load_loop_variable_In _ _ _ Eb) as Ib.
      apply Pb, first_page_Ok in Ib. destruct Ib as (p & Ep).
      rewrite Ep. simpl. eexists. reflexivity. }
    simpl.
    match goal with |- context [for_each ?f (events api)] =>
      destruct (proj2 (for_each_returns f (events api))) as (happened & ->) end.
    { rewrite Forall_forall in *. intros entry I. apply Built; auto. }
    simpl.
    match goal with |- context [for_each ?f (holidays api)] =>
      destruct (proj2 (for_each_returns f (holidays api))) as (observed & ->) end.
    { rewrite Forall_forall in *. intros entry I.
      destruct (fetch_date_Ok _ _ _ _ _ Ed) as (_ & _ & Dn). rewrite Dn. simpl.
      apply Ph, first_page_Ok in I. destruct I as (p & Ep).
      rewrite Ep. simpl. eexists. reflexivity. }
    simpl. eexists. reflexivity.
Qed.

Lemma Forall2_map_eq {A B C : Type} (f : A -> C) (g : B -> C) (xs : list A)
    (ys : list B) :
  Forall2 (fun x y => f x = g y) xs ys -> map f xs = map g ys.
Proof. induction 1; simpl; congruence. Qed.

(** The record that the loops over births, deaths and events build from an
    entry, up to its link. *)
Lemma entry_record (self : Source) (month day : Z) (entry : Entry)
    (ty : EventType) (link0 : result string) (e : Event) :
  (y <- getitem_year entry ;;
   d <- datetime.date_new y month day ;;
   l <- link0 ;;
   Ok (Event_init self d (entry_text entry) l ty None)) = Ok e ->
  source e = self /\ type e = ty /\ title e = entry_text entry
  /\ end_date e = date e
  /\ datetime.month (date e) = month /\ datetime.day (date e) = day
  /\ entry_year entry = Some (datetime.year (date e))
  /\ link0 = Ok (link e).
Proof.
  unfold getitem_year. destruct (entry_year entry) as [y | ]; simpl; [ | discriminate ].
  destruct (datetime.date_new y month day) as [d | ] eqn:Dn; simpl; [ | discriminate ].
  destruct link0 as [l | ]; simpl; [ | discriminate ].
  intros E. injection E as <-. apply date_new_Ok in Dn. subst d. simpl.
  repeat split.
Qed.

(** Every record that [WikipediaSource.fetch_events] returns is of this
    source, ends on the day it starts, and falls on the day and month asked
    for. *)
Lemma WikipediaSource_fetch_events_days (w : World) (self : Source)
    (day month : Z) (year : option Z) (l : list Event) :
  WikipediaSource_fetch_events w self day month year = Ok l ->
  Forall (fun e => source e = self /\ end_date e = date e
                   /\ datetime.month (date e) = month
                   /\ datetime.day (date e) = day) l.
Proof.
  intros E.
  unfold WikipediaSource_fetch_events in E.
  destruct (fetch_date w day month year) as [d0 | ] eqn:Ed; simpl in E;
    [ | discriminate E ].
  destruct (get_feed w month day) as [api | ]; simpl in E; [ | discriminate E ].
  destruct (for_each _ (births api)) as [born' | ] eqn:Eb; simpl in E;
    [ | discriminate E ].
  destruct (for_each _ (deaths api)) as [died' | ] eqn:Edd; simpl in E;
    [ | discriminate E ].
  destruct (for_each _ (events api)) as [happened' | ] eqn:Ee; simpl in E;
    [ | discriminate E ].
  destruct (for_each _ (holidays api)) as [observed' | ] eqn:Eh; simpl in E;
    [ | discriminate E ].
  injection E as <-.
  apply for_each_Forall2 in Eb, Edd, Ee, Eh.
  assert (Right : forall (f : Entry -> result Event) xs ys,
             (forall x y, f x = Ok y ->
                source y = self /\ end_date y = date y
                /\ datetime.month (date y) = month
                /\ datetime.day (date y) = day) ->
             Forall2 (fun x y => f x = Ok y) xs ys ->
             Forall (fun e => source e = self /\ end_date e = date e
                              /\ datetime.month (date e) = month
                              /\ datetime.day (date e) = day) ys).
  { intros f xs ys Hf F. induction F; constructor; eauto. }
  repeat (apply Forall_app; split).
  + eapply Right; [ | exact Eb ]. cbv beta. intros x y H.
    apply entry_record in H. tauto.
  + eapply Right; [ | exact Edd ]. cbv beta. intros x y H.
    assert (H' : (yy <- getitem_year x ;;
                  d <- datetime.date_new yy month day ;;
                  l <- (birth_data <- load_loop_variable "birth_data" (births api) ;;
                        first_page birth_data) ;;
                  Ok (Event_init self d (entry_text x) l DEATH None)) = Ok y).
    { destruct (getitem_year x) as [yy | ]; simpl in *; [ | discriminate H ].
      destruct (datetime.date_new yy month day) as [dd | ]; simpl in *;
        [ | discriminate H ].
      destruct (load_loop_variable "birth_data" (births api)) as [b | ];
        simpl in *; [ exact H | discriminate H ]. }
    apply entry_record in H'. tauto.
  + eapply Right; [ | exact Ee ]. cbv beta. intros x y H.
    apply entry_record in H. tauto.
  + eapply Right; [ | exact Eh ]. cbv beta. intros x y H.
    destruct (fetch_date_Ok _ _ _ _ _ Ed) as (_ & _ & Dn).
    rewrite Dn in H. simpl in H.
    destruct (first_page x) as [p | ]; simpl in H; [ | discriminate H ].
    injection H as <-. simpl.
    destruct (fetch_date_Ok _ _ _ _ _ Ed) as (M & D & _). auto.
Qed.

(** X8.  When [WikipediaSource.fetch_events] returns, it returns one record
    for each entry of the feed, the births first, then the deaths, the events
    and the holidays, each in the order of the feed: the titles are the texts
    of the entries and the categories are BIRTH, DEATH, ON_THIS_DAY and
    HOLIDAY, as many of each as there are entries of that kind.  Every record
    is of this source, ends on the day it starts, and falls on the day and
    month asked for. *)
Theorem WikipediaSource_fetch_events_records (w : World) (self : Source)
    (day month : Z) (year : option Z) (l : list Event) :
  WikipediaSource_fetch_events w self day month year = Ok l ->
  exists api_data : ApiData,
    get_feed w month day = Ok api_data
    /\ map title l
       = map entry_text
           (births api_data ++ deaths api_data ++ events api_data
              ++ holidays api_data)%list
    /\ map type l
       = (repeat BIRTH (List.length (births api_data))
            ++ repeat DEATH (List.length (deaths api_data))
            ++ repeat ON_THIS_DAY (List.length (events api_data))
            ++ repeat HOLIDAY (List.length (holidays api_data)))%list
    /\ Forall (fun e => source e = self /\ end_date e = date e
                        /\ datetime.month (date e) = month
                        /\ datetime.day (date e) = day) l.
Proof.
  intros E.
  destruct (WikipediaSource_fetch_events_returns _ _ _ _ _ _ E)
    as (api & born & died & happened & observed & Ef & -> & Fb & Fd & Fe & Fh).
  exists api. split; [ exact Ef | ].
  assert (Titles : forall (P : Entry -> Event -> Prop) xs ys,
             (forall x y, P x y -> title y = entry_text x) ->
             Forall2 P xs ys -> map title ys = map entry_text xs).
  { intros P xs ys HP F. induction F as [ | x y xs ys Pxy F IH]; simpl;
      [ reflexivity | ].
    rewrite (HP _ _ Pxy), IH. reflexivity. }
  assert (Types : forall (P : Entry -> Event -> Prop) ty xs ys,
             (forall x y, P x y -> type y = ty) ->
             Forall2 P xs ys -> map type ys = repeat ty (List.length xs)).
  { intros P ty xs ys HP F. induction F as [ | x y xs ys Pxy F IH]; simpl;
      [ reflexivity | ].
    rewrite (HP _ _ Pxy), IH. reflexivity. }
  split; [ | split ].
  - rewrite !map_app.
    f_equal; [ | f_equal; [ | f_equal ] ];
      (eapply Titles; [ | eassumption ]); cbv beta; intros x y P; apply P.
  - rewrite !map_app.
    f_equal; [ | f_equal; [ | f_equal ] ];
      (eapply Types; [ | eassumption ]); cbv beta; intros x y P; apply P.
  - eapply WikipediaSource_fetch_events_days. exact E.
Qed.

Lemma WikipediaSource_fetch_events_records_witness :
  exists api_data : ApiData,
    get_feed (Cases.feed_of Cases.full_feed) 8 2 = Ok api_data
    /\ map title
         [Event_init WikipediaSource_self (datetime.mkdate 1990 8 2) "B" "http://b"
            BIRTH None;
          Event_init WikipediaSource_self (datetime.mkdate 2000 8 2) "D" "http://b"
            DEATH None;
          Event_init WikipediaSource_self (datetime.mkdate 1969 8 2) "E" "http://e"
            ON_THIS_DAY None;
          Event_init WikipediaSource_self (datetime.mkdate 2024 8 2) "H" "http://h"
            HOLIDAY None]
       = map entry_text
           (births api_data ++ deaths api_data ++ events api_data
              ++ holidays api_data)%list
    /\ map type
         [Event_init WikipediaSource_self (datetime.mkdate 1990 8 2) "B" "http://b"
            BIRTH None;
          Event_init WikipediaSource_self (datetime.mkdate 2000 8 2) "D" "http://b"
            DEATH None;
          Event_init WikipediaSource_self (datetime.mkdate 1969 8 2) "E" "http://e"
            ON_THIS_DAY None;
          Event_init WikipediaSource_self (datetime.mkdate 2024 8 2) "H" "http://h"
            HOLIDAY None]
       = (repeat BIRTH (List.length (births api_data))
            ++ repeat DEATH (List.length (deaths api_data))
            ++ repeat ON_THIS_DAY (List.length (events api_data))
            ++ repeat HOLIDAY (List.length (holidays api_data)))%list
    /\ Forall (fun e => source e = WikipediaSource_self /\ end_date e = date e
                        /\ datetime.month (date e) = 8
                        /\ datetime.day (date e) = 2)
         [Event_init WikipediaSource_self (datetime.mkdate 1990 8 2) "B" "http://b"
            BIRTH None;
          Event_init WikipediaSource_self (datetime.mkdate 2000 8 2) "D" "http://b"
            DEATH None;
          Event_init WikipediaSource_self (datetime.mkdate 1969 8 2) "E" "http://e"
            ON_THIS_DAY None;
          Event_init WikipediaSource_self (datetime.mkdate 2024 8 2) "H" "http://h"
            HOLIDAY None].
Proof.
  apply (WikipediaSource_fetch_events_records (Cases.feed_of Cases.full_feed)
           WikipediaSource_self 2 8 (Some 2024)).
  reflexivity.
Defined.

(** X9.  The records of one call of [WikipediaSource.fetch_events] are
    ordered by year; within a year by category, holidays before events,
    events before births and births before deaths; and within a category by
    title. *)
Theorem WikipediaSource_records_order (w : World) (self : Source)
    (day month : Z) (year : option Z) (l : list Event) (a b : Event) :
  WikipediaSource_fetch_events w self day month year = Ok l ->
  In a l -> In b l ->
  (Event_lt a b = true <->
   datetime.year (date a) < datetime.year (date b)
   \/ (datetime.year (date a) = datetime.year (date b)
       /\ (value (type a) < value (type b)
           \/ (value (type a) = value (type b)
               /\ String.ltb (title a) (title b) = true)))).
Proof.
  intros E Ia Ib.
  pose proof (WikipediaSource_fetch_events_days _ _ _ _ _ _ E) as F.
  rewrite Forall_forall in F.
  destruct (F a Ia) as (Sa & Ea & Ma & Da).
  destruct (F b Ib) as (Sb & Eb & Mb & Db).
  assert (Ra : single_day_rank a = 0).
  { unfold single_day_rank, is_single_day. rewrite Ea.
    rewrite (proj2 (date_eqb_eq _ _) eq_refl). reflexivity. }
  assert (Rb : single_day_rank b = 0).
  { unfold single_day_rank, is_single_day. rewrite Eb.
    rewrite (proj2 (date_eqb_eq _ _) eq_refl). reflexivity. }
  rewrite Event_lt_lexicographic, Sa, Sb, Ra, Rb, date_ltb_cases.
  assert (Dates : date a = date b <->
                  datetime.year (date a) = datetime.year (date b)).
  { destruct (date a) as [ya ma da], (date b) as [yb mb db]. simpl in *.
    split; [ intros D; injection D; auto | intros ->; congruence ]. }
  rewrite Ma, Mb, Da, Db. intuition (try lia).
Qed.

(** An event of 1969 is before a birth of 1990, whatever their titles. *)
Lemma WikipediaSource_records_order_witness :
  Event_lt
    (Event_init WikipediaSource_self (datetime.mkdate 1969 8 2) "E" "http://e"
       ON_THIS_DAY None)
    (Event_init WikipediaSource_self (datetime.mkdate 1990 8 2) "B" "http://b"
       BIRTH None)
  = true.
Proof.
  apply (WikipediaSource_records_order (Cases.feed_of Cases.full_feed)
           WikipediaSource_self 2 8 (Some 2024) _ _ _ eq_refl).
  - right. right. left. reflexivity.
  - left. reflexivity.
  - left. reflexivity.
Defined.

(** X10.  One entry that cannot be read ends the whole call, and nothing is
    returned of the other entries.  With the date resolved and the feed
    read: a first birth without [year] ends it with KeyError; one whose year
    is below 1 or above 9999 (a year before Christ) with ValueError when the
    year fits a C int, and with OverflowError when it does not; one with no
    page with IndexError; and, with no birth in the feed, a first death that
    has a year of the calendar ends it with UnboundLocalError. *)
Theorem WikipediaSource_fetch_events_entry_errors (w : World) (self : Source)
    (day month : Z) (year : option Z) (d0 : datetime.date) (api_data : ApiData) :
  fetch_date w day month year = Ok d0 ->
  get_feed w month day = Ok api_data ->
  (forall entry rest,
      births api_data = entry :: rest -> entry_year entry = None ->
      WikipediaSource_fetch_events w self day month year = Raise (KeyError "year"))
  /\ (forall entry rest y,
        births api_data = entry :: rest -> entry_year entry = Some y ->
        datetime.INT_MIN <= y < 1 \/ 9999 < y <= datetime.INT_MAX ->
        WikipediaSource_fetch_events w self day month year = Raise ValueError)
  /\ (forall entry rest y,
        births api_data = entry :: rest -> entry_year entry = Some y ->
        y < datetime.INT_MIN \/ datetime.INT_MAX < y ->
        WikipediaSource_fetch_events w self day month year = Raise OverflowError)
  /\ (forall entry rest,
        births api_data = entry :: rest -> dated month day entry ->
        entry_pages entry = [] ->
        WikipediaSource_fetch_events w self day month year = Raise IndexError)
  /\ (forall entry rest,
        births api_data = [] -> deaths api_data = entry :: rest ->
        dated month day entry ->
        WikipediaSource_fetch_events w self day month year
        = Raise (UnboundLocalError "birth_data")).
Proof.
  intros Ed Ef.
  destruct (fetch_date_Ok _ _ _ _ _ Ed) as (_ & _ & Dn).
  destruct (date_new_range _ _ _ _ Dn) as (_ & Rm & Rd).
  unfold WikipediaSource_fetch_events. rewrite Ed, Ef. simpl.
  split; [ | split; [ | split; [ | split ] ] ].
  - intros entry rest -> Ey. simpl. unfold getitem_year. rewrite Ey. reflexivity.
  - intros entry rest y -> Ey R. simpl. unfold getitem_year. rewrite Ey. simpl.
    unfold datetime.INT_MIN, datetime.INT_MAX in R.
    rewrite (date_new_year y month day Rm Rd) by lia.
    rewrite (proj2 (fits_int_spec y))
      by (unfold datetime.INT_MIN, datetime.INT_MAX; lia).
    reflexivity.
  - intros entry rest y -> Ey R. simpl. unfold getitem_year. rewrite Ey. simpl.
    rewrite (date_new_year y month day Rm Rd)
      by (unfold datetime.INT_MIN, datetime.INT_MAX in R; lia).
    destruct (datetime.fits_int y) eqn:F; [ | reflexivity ].
    apply fits_int_spec in F. lia.
  - intros entry rest -> (y & d & Ey & Dy) Ep. simpl.
    unfold getitem_year, first_page. rewrite Ey. simpl. rewrite Dy. simpl.
    rewrite Ep. reflexivity.
  - intros entry rest -> -> (y & d & Ey & Dy). simpl.
    unfold getitem_year. rewrite Ey. simpl. rewrite Dy. reflexivity.
Qed.

(** A feed whose first birth is dated 44 before Christ. *)
Lemma WikipediaSource_fetch_events_entry_errors_witness :
  WikipediaSource_fetch_events
    (Cases.feed_of (mkApiData [Cases.before_christ; Sample.birth] [] [] []))
    WikipediaSource_self 2 8 (Some 2024)
  = Raise ValueError.
Proof.
  refine (proj1 (proj2
            (WikipediaSource_fetch_events_entry_errors
               (Cases.feed_of (mkApiData [Cases.before_christ; Sample.birth] [] [] []))
               WikipediaSource_self 2 8 (Some 2024)
               (datetime.mkdate 2024 8 2)
               (mkApiData [Cases.before_christ; Sample.birth] [] [] [])
               eq_refl eq_refl))
            Cases.before_christ [Sample.birth] (-44) eq_refl eq_refl _).
  left. split; [ discriminate | reflexivity ].
Defined.

(** ** DaysOfTheYearSource: the cards *)

(** X11.  A card whose date block has no tag named [content] inside, as
    every block that holds only its text, ends the card loop with TypeError
    at line 65, whatever the text is and before it is split, stripped or
    parsed: [card_date.content] is a search for such a tag and finds None.
    A page whose first card is such a card ends [fetch_events] with
    TypeError when the date resolves. *)
Theorem card_event_text_only (w : World) (self : Source) (day_card : Card)
    (cards : list Card) (day month : Z) (year : option Z) (d0 : datetime.date) :
  bs4.find "content" (card_date day_card) = None ->
  card_event w self day_card = Raise TypeError
  /\ (fetch_date w day month year = Ok d0 ->
      get_day_cards w (datetime.year d0) (datetime.month d0) (datetime.day d0)
      = Ok (day_card :: cards) ->
      DaysOfTheYearSource_fetch_events w self day month year = Raise TypeError).
Proof.
  intros H.
  assert (E : card_event w self day_card = Raise TypeError)
    by (apply card_event_no_content; exact H).
  split; [ exact E | ].
  intros Ed Ec. unfold DaysOfTheYearSource_fetch_events.
  rewrite Ed. simpl. rewrite Ec. simpl. rewrite E. reflexivity.
Qed.

Lemma card_event_text_only_witness :
  card_event Sample.world DaysOfTheYearSource_self Sample.day_card = Raise TypeError.
Proof.
  exact (proj1 (card_event_text_only Sample.world DaysOfTheYearSource_self
                  Sample.day_card [] 20 9 (Some 2022) Sample.sep_20 eq_refl)).
Defined.

(** X14.  [DaysOfTheYearSource.fetch_events] returns exactly when the date
    resolves and the page of that date has no card, and it returns the
    empty list: a page with a card ends the call with an exception. *)
Theorem DaysOfTheYearSource_fetch_events_returns_iff (w : World) (self : Source)
    (day month : Z) (year : option Z) (l : list Event) :
  DaysOfTheYearSource_fetch_events w self day month year = Ok l <->
  l = []
  /\ exists d0 : datetime.date,
       fetch_date w day month year = Ok d0
       /\ get_day_cards w (datetime.year d0) (datetime.month d0) (datetime.day d0)
          = Ok [].
Proof.
  split.
  - intros E. pose proof (DaysOfTheYearSource_fetch_events_returns _ _ _ _ _ _ E) as ->.
    split; [ reflexivity | ].
    unfold DaysOfTheYearSource_fetch_events in E.
    destruct (fetch_date w day month year) as [d0 | ]; simpl in E; [ | discriminate E ].
    exists d0. split; [ reflexivity | ].
    destruct (get_day_cards w _ _ _) as [[ | c cs] | ]; simpl in E;
      [ reflexivity | | discriminate E ].
    destruct (card_event w self c) as [ev | ] eqn:Ec; simpl in E; [ | discriminate E ].
    exfalso. exact (card_event_raises _ _ _ _ Ec).
  - intros (-> & d0 & Ed & Ec). unfold DaysOfTheYearSource_fetch_events.
    rewrite Ed. simpl. rewrite Ec. reflexivity.
Qed.

(** ** The year 0, and the two addresses *)

(** X15.  A [year] of 0 is read as the year of the day of the call, as a
    year left out would be, but without the comparison with [today]: both
    adapters then do what they do when given the current year. *)
Theorem fetch_events_year_zero (w : World) (self : Source) (day month : Z) :
  fetch_date w day month (Some 0)
  = datetime.date_new (datetime.year (date_today w)) month day
  /\ DaysOfTheYearSource_fetch_events w self day month (Some 0)
     = DaysOfTheYearSource_fetch_events w self day month
         (Some (datetime.year (date_today w)))
  /\ WikipediaSource_fetch_events w self day month (Some 0)
     = WikipediaSource_fetch_events w self day month
         (Some (datetime.year (date_today w))).
Proof.
  assert (E : fetch_date w day month (Some 0)
              = fetch_date w day month (Some (datetime.year (date_today w)))).
  { unfold fetch_date, year_or. simpl.
    destruct (datetime.year (date_today w) =? 0); reflexivity. }
  split; [ | split ].
  - unfold fetch_date, year_or. simpl.
    destruct (datetime.date_new _ month day); reflexivity.
  - unfold DaysOfTheYearSource_fetch_events. rewrite E. reflexivity.
  - unfold WikipediaSource_fetch_events. rewrite E. reflexivity.
Qed.

Lemma append_inj_head (p a b : string) : (p ++ a)%string = (p ++ b)%string -> a = b.
Proof.
  induction p as [ | c p IH]; simpl; [ auto | ].
  intros E. injection E as E. auto.
Qed.

Lemma append_inj_length (a : string) :
  forall a' r r',
    String.length a = String.length a' ->
    (a ++ r)%string = (a' ++ r')%string -> a = a' /\ r = r'.
Proof.
  induction a as [ | c a IH]; intros [ | c' a'] r r'; simpl; try discriminate.
  - auto.
  - intros L E. injection L as L. injection E as -> E.
    destruct (IH _ _ _ L E) as [-> ->]. auto.
Qed.

Lemma reads_back_spec (width : nat) (lo hi y : Z) :
  reads_back width lo hi = true ->
  lo <= y <= hi ->
  int_of_digits 0 (format_int width y) = y
  /\ String.length (format_int width y) = width.
Proof.
  unfold reads_back. rewrite forallb_forall. intros F R.
  specialize (F (Z.to_nat (y - lo))).
  rewrite Z2Nat.id in F by lia.
  replace (lo + (y - lo)) with y in F by lia.
  assert (I : In (Z.to_nat (y - lo)) (seq 0 (Z.to_nat (hi - lo + 1))))
    by (apply in_seq; lia).
  apply F in I. apply andb_true_iff in I. destruct I as [I1 I2].
  apply Z.eqb_eq in I1. apply Nat.eqb_eq in I2. auto.
Qed.

Lemma years_read_back : reads_back 4 1 9999 = true.
Proof. vm_compute. reflexivity. Qed.

Lemma days_read_back : reads_back 2 1 31 = true.
Proof. vm_compute. reflexivity. Qed.

Lemma format_int_inj (width : nat) (lo hi y y' : Z) :
  reads_back width lo hi = true ->
  lo <= y <= hi -> lo <= y' <= hi ->
  format_int width y = format_int width y' -> y = y'.
Proof.
  intros B R R' E.
  destruct (reads_back_spec _ _ _ y B R) as [<- _].
  destruct (reads_back_spec _ _ _ y' B R') as [<- _].
  rewrite E. reflexivity.
Qed.

(** X16.  Two dates of the calendar have two pages: the address that
    [DaysOfTheYearSource] builds from a date determines the date. *)
Theorem DaysOfTheYearSource_url_injective (y m d y' m' d' : Z)
    (dt dt' : datetime.date) :
  datetime.date_new y m d = Ok dt ->
  datetime.date_new y' m' d' = Ok dt' ->
  DaysOfTheYearSource_url y m d = DaysOfTheYearSource_url y' m' d' ->
  dt = dt'.
Proof.
  intros V V' E.
  pose proof (date_new_range _ _ _ _ V) as (Ry & Rm & Rd).
  pose proof (date_new_range _ _ _ _ V') as (Ry' & Rm' & Rd').
  apply date_new_Ok in V, V'. subst dt dt'.
  unfold DaysOfTheYearSource_url in E. apply append_inj_head in E.
  apply append_inj_length in E.
  2:{ rewrite (proj2 (reads_back_spec 4 1 9999 y years_read_back ltac:(lia))).
      rewrite (proj2 (reads_back_spec 4 1 9999 y' years_read_back ltac:(lia))).
      reflexivity. }
  destruct E as [Ey E]. apply (append_inj_head "/") in E.
  apply append_inj_length in E.
  2:{ rewrite (proj2 (reads_back_spec 2 1 31 m days_read_back ltac:(lia))).
      rewrite (proj2 (reads_back_spec 2 1 31 m' days_read_back ltac:(lia))).
      reflexivity. }
  destruct E as [Em E]. apply (append_inj_head "/") in E.
  apply append_inj_length in E.
  2:{ rewrite (proj2 (reads_back_spec 2 1 31 d days_read_back ltac:(lia))).
      rewrite (proj2 (reads_back_spec 2 1 31 d' days_read_back ltac:(lia))).
      reflexivity. }
  destruct E as [Edd _].
  apply (format_int_inj 4 1 9999) in Ey; [ | exact years_read_back | lia | lia ].
  apply (format_int_inj 2 1 31) in Em; [ | exact days_read_back | lia | lia ].
  apply (format_int_inj 2 1 31) in Edd; [ | exact days_read_back | lia | lia ].
  subst. reflexivity.
Qed.

Lemma DaysOfTheYearSource_url_injective_witness :
  datetime.mkdate 2021 8 2 = datetime.mkdate 2021 8 2.
Proof.
  exact (DaysOfTheYearSource_url_injective 2021 8 2 2021 8 2 _ _
           eq_refl eq_refl eq_refl).
Defined.

(** X17.  The address that [WikipediaSource] builds holds the month and the
    day and not the year: it determines the day of the year, and the feeds
    of one day in two years are one feed. *)
Theorem WikipediaSource_api_url_injective (y m d y' m' d' : Z)
    (dt dt' : datetime.date) :
  datetime.date_new y m d = Ok dt ->
  datetime.date_new y' m' d' = Ok dt' ->
  (WikipediaSource_api_url m d = WikipediaSource_api_url m' d'
   <-> m = m' /\ d = d').
Proof.
  intros V V'.
  pose proof (date_new_range _ _ _ _ V) as (Ry & Rm & Rd).
  pose proof (date_new_range _ _ _ _ V') as (Ry' & Rm' & Rd').
  split; [ | intros [-> ->]; reflexivity ].
  intros E. unfold WikipediaSource_api_url in E. apply append_inj_head in E.
  apply append_inj_length in E.
  2:{ rewrite (proj2 (reads_back_spec 2 1 31 m days_read_back ltac:(lia))).
      rewrite (proj2 (reads_back_spec 2 1 31 m' days_read_back ltac:(lia))).
      reflexivity. }
  destruct E as [Em E]. apply (append_inj_head "/") in E.
  apply (format_int_inj 2 1 31) in Em; [ | exact days_read_back | lia | lia ].
  apply (format_int_inj 2 1 31) in E; [ | exact days_read_back | lia | lia ].
  auto.
Qed.

Lemma WikipediaSource_api_url_injective_witness :
  WikipediaSource_api_url 8 2 = WikipediaSource_api_url 8 2 <-> 8 = 8 /\ 2 = 2.
Proof.
  exact (WikipediaSource_api_url_injective 1990 8 2 2024 8 2 _ _ eq_refl eq_refl).
Defined.
